(** * Enterprise Data Evaluation Framework (EDET): layer evaluators and EDTI

    A shallow embedding of the five layer evaluators
    ([src/edet/*/evaluator.py]) and of the trust aggregator
    ([src/edet/trust_engine.py]), with the properties stated about them.

    Modelling conventions.
    - A Python [float] is read as the rational number it denotes: scores are
      values of [Q], arithmetic is exact, and [round(x, n)] rounds to the
      closest multiple of [10^-n], ties to the even multiple (the documented
      behaviour of the builtin).  NaN, where the code can meet one, is an
      absent value ([None]) and every comparison with it is false.
    - A pandas [DataFrame] is a list of typed columns and a row count; a
      missing entry (NaN, None, NaT) is the cell [None].
    - What the code delegates to numerical and text libraries (standard
      deviation, skewness, logarithm, least squares, isolation forest,
      regular expressions over cell text, date and number parsing) is a
      field of the class [TabularEngine]; the evaluators are written over
      any engine.  The test on the Pearson correlation is exact arithmetic
      and is written out.
    - The clock that [evaluate_operational] reads is an argument, [now].
    - The f-strings appended to the flag lists are kept as structured values
      (one constructor per message), so that a flag can be recognised without
      parsing text. *)

From Stdlib Require Import QArith Qround Qminmax Qabs ZArith String Ascii Bool List.
From Stdlib Require Import Lia Lqa Sorting.Permutation Sorting.Sorted.
Import ListNotations.

Open Scope Q_scope.

(* ================================================================== *)
(** ** Python numerics *)
(* ================================================================== *)

Module Py.

(** [a < b], [a > b], [a >= b], [a <= b] on floats. *)
Definition ltb (a b : Q) : bool := negb (Qle_bool b a).
Definition gtb (a b : Q) : bool := ltb b a.
Definition leb (a b : Q) : bool := Qle_bool a b.
Definition geb (a b : Q) : bool := Qle_bool b a.

(** The builtin [max(a, b)]: the first argument unless the second is
    strictly greater; [min(a, b)]: the first unless the second is strictly
    smaller. *)
Definition max (a b : Q) : Q := if gtb b a then b else a.
Definition min (a b : Q) : Q := if ltb b a then b else a.

(** Nearest integer, ties to even. *)
Definition round_half_even (q : Q) : Z :=
  let f := Qfloor q in
  let r := q - inject_Z f in
  if ltb r (1 # 2) then f
  else if gtb r (1 # 2) then (f + 1)%Z
  else if Z.even f then f else (f + 1)%Z.

Definition pow10 (n : nat) : positive := Z.to_pos (10 ^ Z.of_nat n).

(** The builtin [round(x, ndigits)]. *)
Definition round (x : Q) (ndigits : nat) : Q :=
  let p := pow10 ndigits in
  Qmake (round_half_even (x * inject_Z (Zpos p))) p.

End Py.

(* ================================================================== *)
(** ** Result types ([src/edet/models/scores.py]) *)
(* ================================================================== *)

Inductive SensitivityLevel := LOW | MODERATE | HIGH.

Inductive TrustTier :=
  | DECISION_READY
  | REVIEW_RECOMMENDED
  | RISK_PRESENT
  | NOT_TRUSTWORTHY.

(** Flags of the structural layer, one constructor per f-string. *)
Inductive StructuralFlag :=
  | EmptyColumnsFlag (count : nat) (shown : list string) (ellipsis : bool)
  | HighMissingFlag (ratio : Q)
  | ModerateMissingFlag (ratio : Q)
  | DuplicateRowsFlag (count : nat) (pct : Q)
  | ConstantColumnFlag (col : string)
  | NearConstantColumnFlag (col : string) (top : option string)
  | HighCorrelationFlag (c1 c2 : string)
  | TypeInconsistencyFlag (col : string).

Record StructuralResult := {
  structural_integrity_score : Q;
  structural_risk_flags : list StructuralFlag;
  redundant_feature_list : list string;
  candidate_primary_keys : list string
}.

Inductive GovernanceFlag :=
  | NoUniqueIdentifierFlag
  | SensitiveColumnFlag (col : string) (reasons : list string).

Record GovernanceResult := {
  governance_risk_score : Q;
  sensitivity_classification : SensitivityLevel;
  sensitive_column_map : list (string * list string);
  risk_flags : list GovernanceFlag
}.

Inductive OperationalFlag :=
  | NoTemporalColumnFlag
  | VeryStaleFlag
  | StaleFlag
  | ModerateLagFlag
  | TimeGapsFlag.

Record OperationalResult := {
  temporal_reliability_score : Q;
  operational_risk_flags : list OperationalFlag;
  has_temporal_column : bool;
  latest_update_lag_days : option Q
}.

Inductive Violation :=
  | NegativeRevenue (col : string)
  | ProfitAboveRevenue (profit revenue : string)
  | NegativeQuantity (col : string)
  | DuplicateIds (col : string).

Record LogicalResult := {
  logical_integrity_score : Q;
  violation_rate : Q;
  violations_summary : list Violation
}.

Record AnalyticalResult := {
  analytics_utility_score : Q;
  preparation_complexity_score : Q;
  low_variance_columns : list string;
  high_skew_columns : list string;
  high_vif_columns : list string;
  anomaly_density : option Q
}.

Record TrustResult := {
  edti_score : Q;
  trust_tier : TrustTier;
  component_scores : list (string * Q);
  risk_heatmap : list (string * Q)
}.


(* ================================================================== *)
(** ** Trust aggregator ([src/edet/trust_engine.py]) *)
(* ================================================================== *)

Open Scope string_scope.
Open Scope list_scope.

(** A dict with string keys, in insertion order; [d[k]] on a key the dict
    has. The keys looked up below are the literal keys of the dict. *)
Fixpoint getitem (d : list (string * Q)) (k : string) : Q :=
  match d with
  | [] => 0
  | (k', v) :: d' => if String.eqb k k' then v else getitem d' k
  end.

Definition _governance_to_trust_component (gr : GovernanceResult) : Q :=
  Py.max 0 (1 - governance_risk_score gr).

Definition _prep_burden_to_component (prep_score : Q) : Q :=
  Py.max 0 (1 - prep_score).

Definition weights : list (string * Q) :=
  [ ("structural", 0.22);
    ("governance", 0.20);
    ("operational", 0.18);
    ("logical", 0.18);
    ("analytical_utility", 0.12);
    ("preparation_readiness", 0.10) ].

(** Lines 84-91 of [compute_edti]: the tier of a rounded EDTI. *)
Definition tier_of_edti (edti : Q) : TrustTier :=
  if Py.geb edti 0.80 then DECISION_READY
  else if Py.geb edti 0.60 then REVIEW_RECOMMENDED
  else if Py.geb edti 0.40 then RISK_PRESENT
  else NOT_TRUSTWORTHY.

Definition compute_edti
    (structural : StructuralResult) (governance : GovernanceResult)
    (operational : OperationalResult) (logical : LogicalResult)
    (analytical : AnalyticalResult) : TrustResult :=
  let g_trust := _governance_to_trust_component governance in
  let prep_trust :=
    _prep_burden_to_component (preparation_complexity_score analytical) in
  let edti :=
    getitem weights "structural" * structural_integrity_score structural
    + getitem weights "governance" * g_trust
    + getitem weights "operational" * temporal_reliability_score operational
    + getitem weights "logical" * logical_integrity_score logical
    + getitem weights "analytical_utility" * analytics_utility_score analytical
    + getitem weights "preparation_readiness" * prep_trust in
  let edti := Py.round (Py.max 0 (Py.min 1 edti)) 4 in
  let tier := tier_of_edti edti in
  {| edti_score := edti;
     trust_tier := tier;
     component_scores :=
       [ ("Structural Integrity", structural_integrity_score structural);
         ("Governance (1-risk)", g_trust);
         ("Temporal Stability", temporal_reliability_score operational);
         ("Logical Consistency", logical_integrity_score logical);
         ("Analytics Utility", analytics_utility_score analytical);
         ("Preparation Readiness", prep_trust) ];
     risk_heatmap :=
       [ ("Structural", 1 - structural_integrity_score structural);
         ("Governance", governance_risk_score governance);
         ("Operational", 1 - temporal_reliability_score operational);
         ("Logical", 1 - logical_integrity_score logical);
         ("Analytical", 1 - analytics_utility_score analytical);
         ("Preparation Burden", preparation_complexity_score analytical) ] |}.

(* ================================================================== *)
(** ** Column names and literal patterns *)
(* ================================================================== *)

(** [str.lower] on ASCII text. *)
Definition lower_ascii (c : ascii) : ascii :=
  let n := nat_of_ascii c in
  if andb (Nat.leb 65 n) (Nat.leb n 90) then ascii_of_nat (n + 32) else c.

Fixpoint lower (s : string) : string :=
  match s with
  | EmptyString => EmptyString
  | String c s' => String (lower_ascii c) (lower s')
  end.

(** [pat in s] for strings; also [re.search(pat, s)] when [pat] has no
    metacharacter, which is the case of every name pattern of the code. *)
Fixpoint contains (pat s : string) : bool :=
  match s with
  | EmptyString => String.eqb pat EmptyString
  | String _ s' => orb (String.prefix pat s) (contains pat s')
  end.

Definition mem (x : string) (l : list string) : bool :=
  existsb (String.eqb x) l.

(** [list(dict.fromkeys(l))]: first occurrences, in order. *)
Fixpoint dedup (l : list string) (seen : list string) : list string :=
  match l with
  | [] => []
  | x :: l' => if mem x seen then dedup l' seen else x :: dedup l' (x :: seen)
  end.

(* ================================================================== *)
(** ** Tables ([pandas.DataFrame] as the evaluators use it) *)
(* ================================================================== *)

Inductive Dtype :=
  | dt_object | dt_string | dt_int64 | dt_int32 | dt_float64 | dt_bool
  | dt_datetime64.

Inductive Value :=
  | VInt (z : Z)
  | VFloat (q : Q)
  | VStr (s : string)
  | VBool (b : bool)
  | VTime (ns : Z).

(** A cell; [None] is a missing entry (NaN, None, NaT). *)
Definition Cell := option Value.

Record Series := {
  name : string;
  dtype : Dtype;
  values : list Cell
}.

(** [columns] in column order; [n_rows] is the length of the index (a frame
    without columns can still have rows). *)
Record DataFrame := {
  columns : list Series;
  n_rows : nat
}.

(** Which values a column of a given dtype stores. *)
Definition value_has_dtype (d : Dtype) (v : Value) : bool :=
  match d, v with
  | dt_object, VStr _ | dt_string, VStr _ => true
  | dt_int64, VInt _ | dt_int32, VInt _ => true
  | dt_float64, VFloat _ => true
  | dt_bool, VBool _ => true
  | dt_datetime64, VTime _ => true
  | _, _ => false
  end.

Definition cell_has_dtype (d : Dtype) (c : Cell) : bool :=
  match c with None => true | Some v => value_has_dtype d v end.

(** Every column has one cell per row, cells agree with the declared dtype,
    and the column labels are distinct. *)
Definition well_formed_df (df : DataFrame) : Prop :=
  Forall (fun c => length (values c) = n_rows df
                   /\ forallb (cell_has_dtype (dtype c)) (values c) = true)
         (columns df)
  /\ NoDup (map name (columns df)).

Definition value_eqb (a b : Value) : bool :=
  match a, b with
  | VInt x, VInt y => Z.eqb x y
  | VFloat x, VFloat y => Qeq_bool x y
  | VStr x, VStr y => String.eqb x y
  | VBool x, VBool y => Bool.eqb x y
  | VTime x, VTime y => Z.eqb x y
  | _, _ => false
  end.

(** Equality of cells as [duplicated] and [value_counts] see it: two missing
    entries are the same entry. *)
Definition cell_eqb (a b : Cell) : bool :=
  match a, b with
  | None, None => true
  | Some x, Some y => value_eqb x y
  | _, _ => false
  end.

Definition isna (c : Cell) : bool :=
  match c with None => true | Some _ => false end.

Definition notna (c : Cell) : bool := negb (isna c).

Fixpoint dropna (l : list Cell) : list Value :=
  match l with
  | [] => []
  | None :: l' => dropna l'
  | Some v :: l' => v :: dropna l'
  end.

Section Distinct.
Context {A : Type} (eqb : A -> A -> bool).

(** Distinct elements, first occurrences in order. *)
Fixpoint distinct (l : list A) (seen : list A) : list A :=
  match l with
  | [] => []
  | x :: l' =>
      if existsb (eqb x) seen then distinct l' seen
      else x :: distinct l' (x :: seen)
  end.

(** [.duplicated().sum()]: the entries equal to an earlier entry. *)
Fixpoint duplicated_sum (l : list A) (seen : list A) : nat :=
  match l with
  | [] => 0
  | x :: l' =>
      if existsb (eqb x) seen then S (duplicated_sum l' seen)
      else duplicated_sum l' (x :: seen)
  end.

Definition count_occ_b (x : A) (l : list A) : nat :=
  length (filter (eqb x) l).
End Distinct.

(** [s.nunique()]: the distinct values that are not missing. *)
Definition nunique (s : Series) : nat :=
  length (distinct value_eqb (dropna (values s)) []).

(** [s.value_counts(dropna=False)]: the distinct cells with their counts,
    listed by first occurrence; [top_count] is the entry that
    [value_counts] puts first, the most frequent one. *)
Definition cell_counts (l : list Cell) : list (Cell * nat) :=
  map (fun c => (c, count_occ_b cell_eqb c l)) (distinct cell_eqb l []).

Fixpoint top_count (vc : list (Cell * nat)) : option (Cell * nat) :=
  match vc with
  | [] => None
  | (c, n) :: vc' =>
      match top_count vc' with
      | Some (c', n') => if Nat.ltb n n' then Some (c', n') else Some (c, n)
      | None => Some (c, n)
      end
  end.

(** [np.number] dtypes. *)
Definition is_number (d : Dtype) : bool :=
  match d with
  | dt_int64 | dt_int32 | dt_float64 => true
  | _ => false
  end.

(** [np.issubdtype(d, np.integer)], and ["int" in str(d)]. *)
Definition is_integer (d : Dtype) : bool :=
  match d with
  | dt_int64 | dt_int32 => true
  | _ => false
  end.

Definition is_text (d : Dtype) : bool :=
  match d with
  | dt_object | dt_string => true
  | _ => false
  end.

(** [df.select_dtypes(include=[np.number])] *)
Definition select_number (df : DataFrame) : list Series :=
  filter (fun c => is_number (dtype c)) (columns df).

(** [df.empty]: some axis has length 0. *)
Definition df_empty (df : DataFrame) : bool :=
  orb (Nat.eqb (n_rows df) 0) (Nat.eqb (length (columns df)) 0).

(** [df.isna().sum().sum()] *)
Definition isna_total (df : DataFrame) : nat :=
  fold_right (fun c acc => length (filter isna (values c)) + acc)%nat 0%nat
             (columns df).

Definition row (df : DataFrame) (i : nat) : list Cell :=
  map (fun c => nth i (values c) None) (columns df).

Definition rows (df : DataFrame) : list (list Cell) :=
  map (row df) (seq 0 (n_rows df)).

Fixpoint row_eqb (a b : list Cell) : bool :=
  match a, b with
  | [], [] => true
  | x :: a', y :: b' => andb (cell_eqb x y) (row_eqb a' b')
  | _, _ => false
  end.

(** [df.duplicated().sum()]; an empty frame has no duplicated row. *)
Definition df_duplicated_sum (df : DataFrame) : nat :=
  if df_empty df then 0%nat else duplicated_sum row_eqb (rows df) [].

(** The numeric reading of a cell of a numeric column. *)
Definition num (c : Cell) : option Q :=
  match c with
  | Some (VInt z) => Some (inject_Z z)
  | Some (VFloat q) => Some q
  | _ => None
  end.

Definition Qnat (n : nat) : Q := inject_Z (Z.of_nat n).

(** [df.isna().sum().sum() / (n_rows * n_cols) if n_rows * n_cols > 0 else 0] *)
Definition missing_ratio_of (df : DataFrame) : Q :=
  let cells := (n_rows df * length (columns df))%nat in
  if Nat.ltb 0 cells then Qnat (isna_total df) / Qnat cells else 0.

(* ================================================================== *)
(** ** What the evaluators take from numerical and text libraries *)
(* ================================================================== *)

(** Outcome of [LinearRegression().fit(X, y).score(X, y)] inside [_vif]:
    a coefficient of determination, an exception [_vif] catches and skips
    ([LinAlgError], [ValueError]), or any other exception. *)
Inductive FitResult :=
  | FitOk (r2 : Q)
  | FitSkipped
  | FitRaised.

Class TabularEngine := {
  (** [str(v)], as [astype(str)] and f-strings apply it *)
  py_str : Value -> string;
  (** [float(s)] returns (does not raise [ValueError]) *)
  py_float_ok : string -> bool;
  (** [PII_PATTERNS[name].search(text)] finds a match *)
  pii_search : string -> string -> bool;
  (** [pd.to_datetime(..., errors="coerce")] on one cell, in nanoseconds
      since the epoch; [None] is NaT *)
  to_datetime : Cell -> option Z;
  (** [Series.std()]; [None] is NaN *)
  series_std : list Cell -> option Q;
  (** [scipy.stats.skew]; [None] is NaN *)
  stats_skew : list Value -> option Q;
  (** [np.log2] *)
  np_log2 : Q -> Q;
  (** the regression of a column on the others *)
  linreg_r2 : list Series -> Series -> FitResult;
  (** the [sklearn] import at module load succeeded *)
  HAS_SKLEARN : bool;
  (** [IsolationForest(...).fit(X).predict(X)] on the imputed, scaled
      numeric columns: one label (1 or -1) per row; [None] when it raises *)
  isolation_forest_predict : list Series -> option (list Z)
}.

(* ================================================================== *)
(** ** The profile ([src/edet/models/profile.py], [input_layer/profiler.py]) *)
(* ================================================================== *)

Definition is_digit (c : ascii) : bool :=
  let n := nat_of_ascii c in andb (Nat.leb 48 n) (Nat.leb n 57).

Definition is_dash (c : ascii) : bool := Ascii.eqb c "-"%char.

(** [re.match(r"^\d{4}-\d{2}-\d{2}", s)] on ASCII text. *)
Definition iso_date_prefix (s : string) : bool :=
  match list_ascii_of_string s with
  | y1 :: y2 :: y3 :: y4 :: d1 :: m1 :: m2 :: d2 :: a1 :: a2 :: _ =>
      forallb is_digit [y1; y2; y3; y4; m1; m2; a1; a2]
      && is_dash d1 && is_dash d2
  | _ => false
  end.

(** [str(dtype)] *)
Definition dtype_name (d : Dtype) : string :=
  match d with
  | dt_object => "object"
  | dt_string => "string"
  | dt_int64 => "int64"
  | dt_int32 => "int32"
  | dt_float64 => "float64"
  | dt_bool => "bool"
  | dt_datetime64 => "datetime64[ns]"
  end.

Record InputMetadata := {
  file_type : string;
  record_count : nat;
  column_count : nat;
  data_types : list (string * string);
  has_timestamp : bool;
  has_text : bool;
  numeric_density : Q;
  column_names : list string
}.

Definition build_input_metadata `{TabularEngine} (df : DataFrame)
    (file_type : string) : InputMetadata :=
  let record_count := n_rows df in
  let column_count := List.length (columns df) in
  let data_types := map (fun c => (name c, dtype_name (dtype c))) (columns df) in
  let numeric_cols := select_number df in
  let numeric_density :=
    if Nat.eqb column_count 0 then 0.0
    else Qnat (List.length numeric_cols) / Qnat column_count in
  let _has_timestamp :=
    existsb (fun c =>
               match dtype c with
               | dt_datetime64 => true
               | _ => existsb iso_date_prefix (map py_str (dropna (values c)))
               end) (columns df) in
  let _has_text := existsb (fun c => is_text (dtype c)) (columns df) in
  {| file_type := file_type;
     record_count := record_count;
     column_count := column_count;
     data_types := data_types;
     has_timestamp := _has_timestamp;
     has_text := _has_text;
     numeric_density := numeric_density;
     column_names := map name (columns df) |}.

Record DatasetProfile := {
  raw : DataFrame;
  metadata : InputMetadata;
  working_df : option DataFrame
}.

(** The [df] property: the working view when there is one. *)
Definition df (profile : DatasetProfile) : DataFrame :=
  match working_df profile with
  | Some w => w
  | None => raw profile
  end.

Definition create_profile `{TabularEngine} (df : DataFrame)
    (file_type : string) : DatasetProfile :=
  let metadata := build_input_metadata df file_type in
  {| raw := df; metadata := metadata; working_df := None |}.

Definition well_formed (profile : DatasetProfile) : Prop :=
  well_formed_df (df profile).

(* ================================================================== *)
(** ** Logical layer ([src/edet/logical/evaluator.py]) *)
(* ================================================================== *)

Definition _col_like (name : string) (patterns : list string) : bool :=
  let n := lower name in
  existsb (fun p => contains p n) patterns.

(** [(s < 0).sum() > 0] *)
Definition any_negative (s : Series) : bool :=
  existsb (fun c => match num c with
                    | Some q => Py.ltb q 0
                    | None => false
                    end) (values s).

(** [(a > b).sum() > 0], row by row *)
Definition any_greater (a b : Series) : bool :=
  existsb (fun ab => match num (fst ab), num (snd ab) with
                     | Some x, Some y => Py.gtb x y
                     | _, _ => false
                     end) (combine (values a) (values b)).

(** The running tally of [evaluate_logical]. *)
Record Tally := {
  violations : list Violation;
  total_checks : nat;
  passed : nat
}.

(** One check: [total_checks += 1], then either a violation is appended or
    [passed += 1]. *)
Definition run_check (violated : bool) (v : Violation) (t : Tally) : Tally :=
  if violated
  then {| violations := violations t ++ [v];
          total_checks := S (total_checks t);
          passed := passed t |}
  else {| violations := violations t;
          total_checks := S (total_checks t);
          passed := S (passed t) |}.

Definition logical_tally (df : DataFrame) : Tally :=
  let numeric := map name (select_number df) in
  let revenue_cols :=
    filter (fun c => andb (_col_like (name c) ["revenue"; "sales"; "amount"])
                          (mem (name c) numeric)) (columns df) in
  let t := fold_left
             (fun t c => run_check (any_negative c) (NegativeRevenue (name c)) t)
             revenue_cols
             {| violations := []; total_checks := 0; passed := 0 |} in
  let profit_cols :=
    filter (fun c => andb (_col_like (name c) ["profit"; "net_income"])
                          (mem (name c) numeric)) (columns df) in
  let t := fold_left
             (fun t rev_c =>
                fold_left
                  (fun t pr_c =>
                     if String.eqb (name rev_c) (name pr_c) then t
                     else run_check (any_greater pr_c rev_c)
                            (ProfitAboveRevenue (name pr_c) (name rev_c)) t)
                  profit_cols t)
             revenue_cols t in
  let qty_cols :=
    filter (fun c => andb (_col_like (name c) ["qty"; "quantity"; "count"])
                          (mem (name c) numeric)) (columns df) in
  let t := fold_left
             (fun t c => run_check (any_negative c) (NegativeQuantity (name c)) t)
             qty_cols t in
  let id_cols :=
    filter (fun c => andb (_col_like (name c) ["id"; "transaction"; "txn"; "key"])
                          (Nat.ltb 0 (nunique c))) (columns df) in
  fold_left
    (fun t c =>
       if orb (is_text (dtype c)) (is_integer (dtype c))
       then run_check (Nat.ltb 0 (duplicated_sum cell_eqb (values c) []))
              (DuplicateIds (name c)) t
       else t)
    id_cols t.

Definition evaluate_logical (profile : DatasetProfile) : LogicalResult :=
  let t := logical_tally (df profile) in
  let '(integrity, violation_rate) :=
    if Nat.eqb (total_checks t) 0 then (0.85, 0)
    else
      let violation_rate := 1 - Qnat (passed t) / Qnat (total_checks t) in
      (Py.max 0 (1 - violation_rate * 1.5), violation_rate) in
  {| logical_integrity_score := Py.round (Py.min 1 integrity) 4;
     violation_rate := Py.round violation_rate 4;
     violations_summary := firstn 30 (violations t) |}.

(* ================================================================== *)
(** ** Structural layer ([src/edet/structural/evaluator.py]) *)
(* ================================================================== *)

(** Sums over the rows where both columns have a value, as
    [DataFrame.corr] takes them: count, sum x, sum y, sum x^2, sum y^2,
    sum xy. *)
Fixpoint pair_sums (l : list (Cell * Cell)) : Q * Q * Q * Q * Q * Q :=
  match l with
  | [] => (0, 0, 0, 0, 0, 0)
  | (a, b) :: l' =>
      let '(n, sx, sy, sxx, syy, sxy) := pair_sums l' in
      match num a, num b with
      | Some x, Some y =>
          (n + 1, sx + x, sy + y, sxx + x * x, syy + y * y, sxy + x * y)
      | _, _ => (n, sx, sy, sxx, syy, sxy)
      end
  end.

(** [corr.iloc[i, j] > t] for the absolute Pearson correlation of two
    columns and [t >= 0]: with [r = cxy / sqrt (vx * vy)], the test
    [|r| > t] is [cxy^2 > t^2 * vx * vy]; the correlation is NaN, and the
    test false, when a variance is zero. *)
Definition abs_corr_gt (t : Q) (a b : Series) : bool :=
  let '(n, sx, sy, sxx, syy, sxy) :=
    pair_sums (combine (values a) (values b)) in
  let cxy := n * sxy - sx * sy in
  let vx := n * sxx - sx * sx in
  let vy := n * syy - sy * sy in
  andb (Py.gtb (vx * vy) 0) (Py.gtb (cxy * cxy) (t * t * (vx * vy))).

(** The three lists [evaluate_structural] appends to. *)
Record StructState := {
  flags : list StructuralFlag;
  redundant : list string;
  candidate_pks : list string
}.

Definition add_flag (f : StructuralFlag) (st : StructState) : StructState :=
  {| flags := flags st ++ [f];
     redundant := redundant st;
     candidate_pks := candidate_pks st |}.

Definition add_redundant (c : string) (st : StructState) : StructState :=
  {| flags := flags st;
     redundant := redundant st ++ [c];
     candidate_pks := candidate_pks st |}.

Definition add_candidate_pk (c : string) (st : StructState) : StructState :=
  {| flags := flags st;
     redundant := redundant st;
     candidate_pks := candidate_pks st ++ [c] |}.

Definition empty_columns (df : DataFrame) : list string :=
  map name (filter (fun c => forallb isna (values c)) (columns df)).

(** Identifier uniqueness, candidate primary keys and constant columns. *)
Definition identifier_step (n_rows : nat) (st : StructState) (col : Series)
    : StructState :=
  if orb (is_text (dtype col)) (is_integer (dtype col)) then
    let uniq := nunique col in
    let st :=
      if andb (andb (Nat.eqb uniq n_rows) (Nat.ltb 0 n_rows))
              (forallb notna (values col))
      then add_candidate_pk (name col) st else st in
    if andb (Nat.eqb uniq 1) (Nat.ltb 1 n_rows)
    then add_flag (ConstantColumnFlag (name col)) (add_redundant (name col) st)
    else st
  else st.

Definition near_constant_step `{TabularEngine} (n_rows : nat)
    (st : StructState) (col : Series) : StructState :=
  if mem (name col) (redundant st) then st
  else
    match top_count (cell_counts (values col)) with
    | Some (top, k) =>
        if andb (Py.geb (Qnat k / Qnat n_rows) 0.95) (Nat.ltb 10 n_rows)
        then add_flag (NearConstantColumnFlag (name col) (option_map py_str top))
               (add_redundant (name col) st)
        else st
    | None => st
    end.

Definition enumerate {A : Type} (l : list A) : list (nat * A) :=
  combine (seq 0 (List.length l)) l.

Definition correlation_step (num_cols : list Series) (st : StructState)
    : StructState :=
  if Nat.leb 2 (List.length num_cols) then
    fold_left
      (fun st ic1 =>
         fold_left
           (fun st jc2 =>
              if andb (Nat.ltb (fst ic1) (fst jc2))
                      (abs_corr_gt 0.95 (snd ic1) (snd jc2))
              then add_flag (HighCorrelationFlag (name (snd ic1)) (name (snd jc2)))
                     (add_redundant (name (snd jc2))
                        (add_redundant (name (snd ic1)) st))
              else st)
           (enumerate num_cols) st)
      (enumerate num_cols) st
  else st.

Definition remove_commas (s : string) : string :=
  string_of_list_ascii
    (filter (fun c => negb (Ascii.eqb c ","%char)) (list_ascii_of_string s)).

Definition looks_numeric `{TabularEngine} (s : string) : bool :=
  py_float_ok (remove_commas s).

Definition type_inconsistency_step `{TabularEngine} (st : StructState)
    (col : Series) : StructState :=
  let non_null := map py_str (dropna (values col)) in
  if Nat.eqb (List.length non_null) 0 then st
  else
    let num_like := List.length (filter looks_numeric non_null) in
    if andb (Nat.ltb 0 num_like) (Nat.ltb num_like (List.length non_null))
    then add_flag (TypeInconsistencyFlag (name col)) st
    else st.

Definition evaluate_structural `{TabularEngine} (profile : DatasetProfile)
    : StructuralResult :=
  let df := df profile in
  let n_rows := n_rows df in
  let n_cols := List.length (columns df) in
  let st := {| flags := []; redundant := []; candidate_pks := [] |} in
  (* schema completeness *)
  let empty_cols := empty_columns df in
  let st :=
    if Nat.ltb 0 (List.length empty_cols)
    then add_flag (EmptyColumnsFlag (List.length empty_cols)
                     (firstn 5 empty_cols)
                     (Nat.ltb 5 (List.length empty_cols))) st
    else st in
  (* missing value density *)
  let missing_ratio := missing_ratio_of df in
  let st :=
    if Py.gtb missing_ratio 0.3 then add_flag (HighMissingFlag missing_ratio) st
    else if Py.gtb missing_ratio 0.1
         then add_flag (ModerateMissingFlag missing_ratio) st
         else st in
  (* duplicate rows *)
  let dup_count := df_duplicated_sum df in
  let st :=
    if Nat.ltb 0 dup_count
    then
      let pct := if Nat.eqb n_rows 0 then 0 else Qnat dup_count / Qnat n_rows in
      add_flag (DuplicateRowsFlag dup_count pct) st
    else st in
  let st := fold_left (identifier_step n_rows) (columns df) st in
  let st := fold_left (near_constant_step n_rows) (columns df) st in
  let st := correlation_step (select_number df) st in
  let redundant := dedup (redundant st) [] in
  let st :=
    fold_left type_inconsistency_step
      (filter (fun c => match dtype c with dt_object => true | _ => false end)
              (columns df)) st in
  (* structural integrity score *)
  let score := 1.0 in
  let score :=
    if Py.gtb missing_ratio 0.5 then score - 0.35
    else if Py.gtb missing_ratio 0.2 then score - 0.2
    else if Py.gtb missing_ratio 0.05 then score - 0.1
    else score in
  let score :=
    if Py.gtb (Qnat dup_count / Qnat (Nat.max n_rows 1)) 0.1 then score - 0.2
    else if Nat.ltb 0 dup_count then score - 0.1
    else score in
  let score :=
    if Nat.ltb 0 (List.length empty_cols)
    then score - 0.1 * Qnat (Nat.min (List.length empty_cols) 3)
    else score in
  let score :=
    if Py.gtb (Qnat (List.length redundant)) (Qnat n_cols * 0.3)
    then score - 0.15 else score in
  let score := Py.max 0 (Py.min 1 score) in
  {| structural_integrity_score := Py.round score 4;
     structural_risk_flags := flags st;
     redundant_feature_list := redundant;
     candidate_primary_keys := candidate_pks st |}.

(* ================================================================== *)
(** ** Governance layer ([src/edet/governance/evaluator.py]) *)
(* ================================================================== *)

(** The keys of [PII_PATTERNS], in the order of the dict; the compiled
    regular expressions are the engine's [pii_search]. *)
Definition PII_PATTERNS : list string :=
  ["email"; "ssn"; "phone_us"; "credit_card"; "iban"; "ip_address"].

Definition SENSITIVE_NAME_PATTERNS : list string :=
  ["password"; "passwd"; "pwd"; "secret"; "token"; "api_key";
   "ssn"; "social"; "tax_id"; "nin"; "dob"; "birth_date";
   "salary"; "income"; "bank_account"; "credit_card"; "cvv";
   "email"; "phone"; "address"; "name"; "first_name"; "last_name"].

Definition _column_name_risk (col : string) : list string :=
  let col_lower := lower col in
  map (fun pat => ("name:" ++ pat)%string)
      (filter (fun pat => contains pat col_lower) SENSITIVE_NAME_PATTERNS).

Definition _detect_patterns_in_series `{TabularEngine} (s : Series)
    : list string :=
  let sample := firstn 1000 (map py_str (dropna (values s))) in
  filter (fun name => existsb (pii_search name) sample) PII_PATTERNS.

(** [d[k] = v] on an insertion-ordered dict. *)
Fixpoint setitem {V : Type} (d : list (string * V)) (k : string) (v : V)
    : list (string * V) :=
  match d with
  | [] => [(k, v)]
  | (k', v') :: d' =>
      if String.eqb k k' then (k', v) :: d' else (k', v') :: setitem d' k v
  end.

Definition any_contains (pats : list string) (reasons : list string) : bool :=
  existsb (fun r => existsb (fun p => contains p r) pats) reasons.

(** The reasons collected for one column: name hits, then, for a text
    column, pattern hits on a sample of its values. *)
Definition column_reasons `{TabularEngine} (col : Series) : list string :=
  let name_risks := _column_name_risk (name col) in
  if is_text (dtype col)
  then name_risks ++ _detect_patterns_in_series col
  else name_risks.

(** The weight the [if]/[elif] chain feeds to [max(max_risk, _)], when a
    branch is taken. *)
Definition reasons_risk (reasons : list string) : option Q :=
  if any_contains ["password"; "secret"; "token"] reasons then Some 1.0
  else if any_contains ["ssn"; "credit_card"; "salary"] reasons then Some 0.9
  else if any_contains ["email"; "phone"] reasons then Some 0.7
  else None.

(** The body of the column loop: the map and [max_risk] after one column.
    [list(set(reasons))] keeps each reason once; its order is not fixed by
    the language and first occurrences are kept here. *)
Definition governance_step `{TabularEngine}
    (st : list (string * list string) * Q) (col : Series)
    : list (string * list string) * Q :=
  let reasons := column_reasons col in
  match reasons with
  | [] => st
  | _ :: _ =>
      let sensitive_map := setitem (fst st) (name col) (dedup reasons []) in
      match reasons_risk reasons with
      | Some w => (sensitive_map, Py.max (snd st) w)
      | None => (sensitive_map, snd st)
      end
  end.

Definition evaluate_governance `{TabularEngine} (profile : DatasetProfile)
    : GovernanceResult :=
  let df := df profile in
  let n_cols := List.length (columns df) in
  let n_rows := n_rows df in
  let '(sensitive_map, max_risk) :=
    fold_left governance_step (columns df) ([], 0.0) in
  let risk_flags :=
    if Nat.ltb 0 n_rows then
      let has_unique :=
        existsb (fun c => Nat.eqb (nunique c) n_rows) (columns df) in
      if andb (negb has_unique) (Nat.ltb 0 n_cols)
      then [NoUniqueIdentifierFlag] else []
    else [] in
  let num_sensitive := List.length sensitive_map in
  let governance_risk :=
    if Nat.ltb 0 num_sensitive
    then Py.min 1.0 (0.3 + 0.2 * Qnat num_sensitive + max_risk * 0.5)
    else 0.1 in
  let governance_risk := Py.min 1.0 governance_risk in
  let sensitivity_classification :=
    if orb (Py.geb max_risk 0.9) (Nat.leb 5 num_sensitive) then HIGH
    else if orb (Py.geb max_risk 0.5) (Nat.leb 2 num_sensitive) then MODERATE
    else LOW in
  let risk_flags :=
    risk_flags
    ++ map (fun kv => SensitiveColumnFlag (fst kv) (snd kv)) sensitive_map in
  {| governance_risk_score := Py.round governance_risk 4;
     sensitivity_classification := sensitivity_classification;
     sensitive_column_map := sensitive_map;
     risk_flags := firstn 50 risk_flags |}.

(* ================================================================== *)
(** ** Operational layer ([src/edet/operational/evaluator.py]) *)
(* ================================================================== *)

(** The timestamps of a datetime column, in nanoseconds, missing entries
    dropped. *)
Fixpoint timestamps (l : list Cell) : list Z :=
  match l with
  | [] => []
  | Some (VTime ns) :: l' => ns :: timestamps l'
  | _ :: l' => timestamps l'
  end.

Fixpoint somes {A : Type} (l : list (option A)) : list A :=
  match l with
  | [] => []
  | Some x :: l' => x :: somes l'
  | None :: l' => somes l'
  end.

Fixpoint _find_temporal_column `{TabularEngine} (cols : list Series)
    : option (list Z) :=
  match cols with
  | [] => None
  | col :: rest =>
      match dtype col with
      | dt_datetime64 => Some (timestamps (values col))
      | _ =>
          if existsb iso_date_prefix (map py_str (dropna (values col)))
          then Some (somes (map to_datetime (values col)))
          else _find_temporal_column rest
      end
  end.

(** [Series.sort_values()] on timestamps or time differences. *)
Fixpoint insert_sorted (x : Z) (l : list Z) : list Z :=
  match l with
  | [] => [x]
  | y :: l' => if Z.leb x y then x :: l else y :: insert_sorted x l'
  end.

Definition sort_values (l : list Z) : list Z :=
  fold_right insert_sorted [] l.

(** [Series.max()] of a non-empty series. *)
Definition series_max (l : list Z) : Z :=
  match l with
  | [] => 0%Z
  | x :: l' => fold_left Z.max l' x
  end.

(** [Series.diff().dropna()]: each entry minus the one before it. *)
Fixpoint diff (l : list Z) : list Z :=
  match l with
  | x :: (y :: _) as l' => (y - x)%Z :: diff l'
  | _ => []
  end.

(** Twice [Series.median()]: the middle entry of the sorted values counted
    twice, or the sum of the two middle entries.  The median of an even
    number of entries is their mean, kept exact here by doubling. *)
Definition twice_median (l : list Z) : Z :=
  let s := sort_values l in
  let n := List.length s in
  if Nat.even n
  then (nth (n / 2 - 1) s 0 + nth (n / 2) s 0)%Z
  else (2 * nth (n / 2) s 0)%Z.

Definition ns_per_day : Z := 86400 * 1000000000.

(** [gaps = (diffs > 2 * diffs.median()).sum()] *)
Definition gap_count (diffs : list Z) : nat :=
  List.length (filter (fun d => Z.ltb (twice_median diffs) d) diffs).

(** [now] is the reading of [pd.Timestamp.now()], in nanoseconds. *)
Definition evaluate_operational `{TabularEngine} (now : Z)
    (profile : DatasetProfile) : OperationalResult :=
  let df := df profile in
  let no_temporal :=
    {| temporal_reliability_score := 0.5;
       operational_risk_flags := [NoTemporalColumnFlag];
       has_temporal_column := false;
       latest_update_lag_days := None |} in
  match _find_temporal_column (columns df) with
  | None => no_temporal
  | Some ts =>
      if Nat.eqb (List.length ts) 0 then no_temporal
      else
        let ts := sort_values ts in
        let latest := series_max ts in
        let latest_lag_days := inject_Z (now - latest) / inject_Z ns_per_day in
        let '(flags, score) :=
          if Py.gtb latest_lag_days 365 then ([VeryStaleFlag], 1.0 - 0.4)
          else if Py.gtb latest_lag_days 90 then ([StaleFlag], 1.0 - 0.2)
          else if Py.gtb latest_lag_days 30 then ([ModerateLagFlag], 1.0 - 0.1)
          else ([], 1.0) in
        let '(flags, score) :=
          if Nat.leb 2 (List.length ts) then
            let diffs := diff ts in
            if andb (Nat.ltb 0 (List.length diffs))
                    (Z.ltb 0 (twice_median diffs))
            then
              let gaps := gap_count diffs in
              if Nat.ltb 0 gaps
              then (flags ++ [TimeGapsFlag],
                    score - Py.min 0.2 (0.05 * Qnat (Nat.min gaps 4)))
              else (flags, score)
            else (flags, score)
          else (flags, score) in
        let score := Py.max 0 (Py.min 1 score) in
        {| temporal_reliability_score := Py.round score 4;
           operational_risk_flags := flags;
           has_temporal_column := true;
           latest_update_lag_days := Some (Py.round latest_lag_days 2) |}
  end.

(* ================================================================== *)
(** ** Analytical layer ([src/edet/analytical/evaluator.py]) *)
(* ================================================================== *)

(** Comparisons with an operand that may be NaN. *)
Definition nan_ltb (a b : option Q) : bool :=
  match a, b with
  | Some x, Some y => Py.ltb x y
  | _, _ => false
  end.

Definition nan_gtb (a b : option Q) : bool := nan_ltb b a.

Definition nan_eqb (a b : option Q) : bool :=
  match a, b with
  | Some x, Some y => Qeq_bool x y
  | _, _ => false
  end.

Definition nan_mul (a : option Q) (k : Q) : option Q :=
  option_map (fun x => x * k) a.

Definition Qsum (l : list Q) : Q := fold_right Qplus 0 l.

(** [Series.mean()]: NaN when no entry has a value. *)
Definition series_mean (l : list Cell) : option Q :=
  let xs := somes (map num l) in
  match xs with
  | [] => None
  | _ :: _ => Some (Qsum xs / Qnat (List.length xs))
  end.

(** [Series.abs().max()] *)
Definition series_abs_max (l : list Cell) : option Q :=
  match somes (map num l) with
  | [] => None
  | x :: xs => Some (fold_left (fun m y => Py.max m (Qabs y)) xs (Qabs x))
  end.

Inductive Vif :=
  | VifFinite (v : Q)
  | VifInfinite.

(** [_vif]: [None] when an exception leaves the function. *)
Fixpoint vif_loop `{TabularEngine} (num : list Series) (todo : list Series)
    (vifs : list (string * Vif)) : option (list (string * Vif)) :=
  match todo with
  | [] => Some vifs
  | y :: todo' =>
      let X := filter (fun c => negb (String.eqb (name c) (name y))) num in
      let X := filter (fun c => nan_gtb (series_std (values c)) (Some 0)) X in
      if Nat.eqb (List.length X) 0 then vif_loop num todo' vifs
      else
        match linreg_r2 X y with
        | FitOk r2 =>
            let vif := if Py.ltb r2 1 then VifFinite (1 / (1 - r2))
                       else VifInfinite in
            vif_loop num todo' (setitem vifs (name y) vif)
        | FitSkipped => vif_loop num todo' vifs
        | FitRaised => None
        end
  end.

Definition _vif `{TabularEngine} (df : DataFrame)
    : option (list (string * Vif)) :=
  let num :=
    filter (fun c => existsb notna (values c)) (select_number df) in
  if Nat.ltb (List.length num) 2 then Some []
  else vif_loop num num [].

Definition vif_gt_10 (v : Vif) : bool :=
  match v with
  | VifFinite q => Py.gtb q 10
  | VifInfinite => true
  end.

(** [df[c].value_counts(normalize=True)]: the share of each distinct value
    among the entries that have one. *)
Definition value_shares (l : list Cell) : list Q :=
  let vs := dropna l in
  map (fun v => Qnat (count_occ_b value_eqb v vs) / Qnat (List.length vs))
      (distinct value_eqb vs []).

Definition tiny : Q := 1 # 10000000000.

Definition low_variance `{TabularEngine} (c : Series) : bool :=
  let std := series_std (values c) in
  if orb (nan_eqb std (Some 0))
         (andb (nan_ltb std (Some tiny))
               (nan_gtb (series_abs_max (values c)) (Some tiny)))
  then true
  else
    andb (nan_ltb (series_std (values c)) (nan_mul (series_mean (values c)) 0.01))
         (match series_mean (values c) with
          | Some m => negb (Qeq_bool m 0)
          | None => true
          end).

Definition high_skew `{TabularEngine} (c : Series) : bool :=
  match stats_skew (dropna (values c)) with
  | Some sk => Py.gtb (Qabs sk) 2
  | None => false
  end.

Definition low_diversity `{TabularEngine} (c : Series) : bool :=
  let vc := value_shares (values c) in
  let ent := - Qsum (map (fun p => p * np_log2 (p + tiny)) vc) in
  let max_ent := if Nat.ltb 1 (List.length vc)
                 then np_log2 (Qnat (List.length vc)) else 1 in
  andb (Py.gtb max_ent 0) (Py.ltb (ent / max_ent) 0.1).

Definition count_label (x : Z) (l : list Z) : nat :=
  List.length (filter (Z.eqb x) l).

Definition evaluate_analytical `{TabularEngine} (profile : DatasetProfile)
    : AnalyticalResult :=
  let df := df profile in
  let n_rows := n_rows df in
  let n_cols := List.length (columns df) in
  let numeric := select_number df in
  if orb (Nat.eqb n_rows 0) (Nat.eqb (List.length numeric) 0) then
    {| analytics_utility_score := 0.5;
       preparation_complexity_score := 0.5;
       low_variance_columns := [];
       high_skew_columns := [];
       high_vif_columns := [];
       anomaly_density := None |}
  else
    let utility_score := 1.0 in
    let prep_complexity := 0.0 in
    (* variance sufficiency *)
    let low_var := map name (filter low_variance numeric) in
    let '(utility_score, prep_complexity) :=
      match low_var with
      | [] => (utility_score, prep_complexity)
      | _ :: _ =>
          (utility_score - 0.1 * Qnat (Nat.min (List.length low_var) 5),
           prep_complexity + 0.1 * Qnat (List.length low_var))
      end in
    (* skewness *)
    let high_skew :=
      map name
          (filter (fun c => andb (negb (mem (name c) low_var)) (high_skew c))
                  numeric) in
    let '(utility_score, prep_complexity) :=
      match high_skew with
      | [] => (utility_score, prep_complexity)
      | _ :: _ =>
          (utility_score - 0.05 * Qnat (Nat.min (List.length high_skew) 4),
           prep_complexity + 0.05 * Qnat (List.length high_skew))
      end in
    (* categorical entropy *)
    let obj := filter (fun c => is_text (dtype c)) (columns df) in
    let prep_complexity :=
      fold_left (fun prep c => if low_diversity c then prep + 0.05 else prep)
                obj prep_complexity in
    (* multicollinearity *)
    let '(high_vif, utility_score, prep_complexity) :=
      match _vif df with
      | Some vifs =>
          let high_vif := map fst (filter (fun kv => vif_gt_10 (snd kv)) vifs) in
          match high_vif with
          | [] => (high_vif, utility_score, prep_complexity)
          | _ :: _ =>
              (high_vif,
               utility_score - 0.1 * Qnat (Nat.min (List.length high_vif) 3),
               prep_complexity + 0.1 * Qnat (List.length high_vif))
          end
      | None => ([], utility_score, prep_complexity)
      end in
    (* missing burden *)
    let missing_ratio := missing_ratio_of df in
    let prep_complexity := prep_complexity + missing_ratio * 0.5 in
    (* isolation forest anomaly density *)
    let anomaly_density :=
      if andb HAS_SKLEARN (andb (Nat.ltb 10 n_rows)
                                (Nat.leb 1 (List.length numeric)))
      then
        match isolation_forest_predict numeric with
        | Some pred =>
            Some (Qnat (count_label (-1) pred) / Qnat (List.length pred))
        | None => None
        end
      else None in
    let utility_score := Py.max 0 (Py.min 1 utility_score) in
    let prep_complexity := Py.min 1 prep_complexity in
    {| analytics_utility_score := Py.round utility_score 4;
       preparation_complexity_score := Py.round prep_complexity 4;
       low_variance_columns := low_var;
       high_skew_columns := high_skew;
       high_vif_columns := high_vif;
       anomaly_density := option_map (fun a => Py.round a 4) anomaly_density |}.

(* ================================================================== *)
(** ** The pipeline ([TrustEngine.evaluate]) *)
(* ================================================================== *)


(* ================================================================== *)
(** ** Quantities the statements below are phrased with *)
(* ================================================================== *)

(** A score of the unit interval. *)
Definition in_unit (x : Q) : Prop := 0 <= x <= 1.

(** The sensitive columns of a table: those with at least one reason. *)
Definition is_sensitive `{TabularEngine} (col : Series) : bool :=
  match column_reasons col with
  | [] => false
  | _ :: _ => true
  end.

Definition sensitive_column_count `{TabularEngine} (df : DataFrame) : nat :=
  List.length (filter is_sensitive (columns df)).

(** The risk weight of one column: 1.0 for a password, secret or token
    match, else 0.9 for an ssn, credit card or salary match, else 0.7 for an
    email or phone match, else nothing. *)
Definition column_risk_weight `{TabularEngine} (col : Series) : Q :=
  match reasons_risk (column_reasons col) with
  | Some w => w
  | None => 0
  end.

(** The largest risk weight over the columns of a table. *)
Definition overall_max_risk `{TabularEngine} (df : DataFrame) : Q :=
  fold_right (fun c m => Qmax (column_risk_weight c) m) 0 (columns df).

(** The keys of a dict, in insertion order. *)
Definition keys {V : Type} (d : list (string * V)) : list string := map fst d.

(** The values [max_risk] can take. *)
Definition risk_levels : list Q := [0.0; 0.7; 0.9; 1.0].

(** The name patterns of the business rules. *)
Definition rule_patterns : list string :=
  ["revenue"; "sales"; "amount"; "qty"; "quantity"; "count";
   "id"; "transaction"; "txn"; "key"].

(** [st'] has every flag and every redundant column of [st]. *)
Definition extends (st st' : StructState) : Prop :=
  incl (flags st) (flags st') /\ incl (redundant st) (redundant st').




(** What [evaluate_analytical] returns when it has nothing numeric to
    analyse. *)
Definition analytical_default : AnalyticalResult :=
  {| analytics_utility_score := 0.5;
     preparation_complexity_score := 0.5;
     low_variance_columns := [];
     high_skew_columns := [];
     high_vif_columns := [];
     anomaly_density := None |}.

(* ================================================================== *)
(** ** Tables and an engine to evaluate the statements on *)
(* ================================================================== *)

(** An engine without capabilities: text of a string cell is the string,
    nothing parses as a number or a date, no pattern matches, every
    statistic is NaN, no regression fits and [sklearn] is absent. *)
Definition bare_engine : TabularEngine :=
  {| py_str := fun v => match v with VStr s => s | _ => "" end;
     py_float_ok := fun _ => false;
     pii_search := fun _ _ => false;
     to_datetime := fun _ => None;
     series_std := fun _ => None;
     stats_skew := fun _ => None;
     np_log2 := fun _ => 0;
     linreg_r2 := fun _ _ => FitSkipped;
     HAS_SKLEARN := false;
     isolation_forest_predict := fun _ => None |}.

(** One day, in nanoseconds. *)
Definition day : Z := ns_per_day.

(** Timestamps with a zero median gap: three equal readings and one a day
    later. *)
Definition repeated_timestamps : DataFrame :=
  {| columns :=
       [ {| name := "updated_at"; dtype := dt_datetime64;
            values := [Some (VTime 0); Some (VTime 0); Some (VTime 0);
                       Some (VTime day)] |} ];
     n_rows := 4 |}.

Definition repeated_timestamps_profile : DatasetProfile :=
  @create_profile bare_engine repeated_timestamps "csv".



(** Three revenue-like columns, one of them with a negative amount. *)
Definition revenue_table : DataFrame :=
  {| columns :=
       [ {| name := "revenue"; dtype := dt_float64;
            values := [Some (VFloat (-1))] |};
         {| name := "sales"; dtype := dt_float64;
            values := [Some (VFloat 1)] |};
         {| name := "amount"; dtype := dt_float64;
            values := [Some (VFloat 1)] |} ];
     n_rows := 1 |}.

Definition revenue_profile : DatasetProfile :=
  @create_profile bare_engine revenue_table "csv".

(** A float column holding the same value in both rows, next to an
    identifier column. *)
Definition rate_column : Series :=
  {| name := "rate"; dtype := dt_float64;
     values := [Some (VFloat 1.5); Some (VFloat 1.5)] |}.

Definition constant_float_table : DataFrame :=
  {| columns :=
       [ {| name := "id"; dtype := dt_int64;
            values := [Some (VInt 1); Some (VInt 2)] |};
         rate_column ];
     n_rows := 2 |}.

Definition constant_float_profile : DatasetProfile :=
  @create_profile bare_engine constant_float_table "csv".

(** A table with two columns and no row. *)
Definition no_row_table : DataFrame :=
  {| columns :=
       [ {| name := "id"; dtype := dt_int64; values := [] |};
         {| name := "price"; dtype := dt_float64; values := [] |} ];
     n_rows := 0 |}.

Definition no_row_profile : DatasetProfile :=
  @create_profile bare_engine no_row_table "csv".

(** A status column holding the same text in both rows. *)
Definition status_column : Series :=
  {| name := "status"; dtype := dt_object;
     values := [Some (VStr "ok"); Some (VStr "ok")] |}.

Definition constant_text_table : DataFrame :=
  {| columns :=
       [ {| name := "id"; dtype := dt_int64;
            values := [Some (VInt 1); Some (VInt 2)] |};
         status_column ];
     n_rows := 2 |}.

Definition constant_text_profile : DatasetProfile :=
  @create_profile bare_engine constant_text_table "csv".

(** Two rows with an e-mail column. *)
Definition contacts_table : DataFrame :=
  {| columns :=
       [ {| name := "id"; dtype := dt_int64;
            values := [Some (VInt 1); Some (VInt 2)] |};
         {| name := "Email"; dtype := dt_object;
            values := [Some (VStr "ann@example.org");
                       Some (VStr "bob@example.org")] |} ];
     n_rows := 2 |}.

Definition contacts_profile : DatasetProfile :=
  @create_profile bare_engine contacts_table "csv".

(** Readings taken daily until day 19990 of the epoch. *)
Definition recent_table : DataFrame :=
  {| columns :=
       [ {| name := "updated_at"; dtype := dt_datetime64;
            values := [Some (VTime (19989 * day)); Some (VTime (19990 * day))] |} ];
     n_rows := 2 |}.

Definition recent_profile : DatasetProfile :=
  @create_profile bare_engine recent_table "csv".

(** Layer results that carry a score and nothing else. *)
Definition uniform_structural (x : Q) : StructuralResult :=
  {| structural_integrity_score := x;
     structural_risk_flags := [];
     redundant_feature_list := [];
     candidate_primary_keys := [] |}.

Definition uniform_governance (x : Q) : GovernanceResult :=
  {| governance_risk_score := x;
     sensitivity_classification := LOW;
     sensitive_column_map := [];
     risk_flags := [] |}.

Definition uniform_operational (x : Q) : OperationalResult :=
  {| temporal_reliability_score := x;
     operational_risk_flags := [];
     has_temporal_column := true;
     latest_update_lag_days := None |}.

Definition uniform_logical (x : Q) : LogicalResult :=
  {| logical_integrity_score := x;
     violation_rate := 0;
     violations_summary := [] |}.

Definition uniform_analytical (u c : Q) : AnalyticalResult :=
  {| analytics_utility_score := u;
     preparation_complexity_score := c;
     low_variance_columns := [];
     high_skew_columns := [];
     high_vif_columns := [];
     anomaly_density := None |}.

(* ================================================================== *)
(** ** Further quantities and tables *)
(* ================================================================== *)

(** The four tiers, ranked from worst to best. *)
Definition tier_rank (t : TrustTier) : nat :=
  match t with
  | NOT_TRUSTWORTHY => 0
  | RISK_PRESENT => 1
  | REVIEW_RECOMMENDED => 2
  | DECISION_READY => 3
  end.


(** The test of the identifier loop for a candidate primary key. *)
Definition is_key_columnb (n_rows : nat) (c : Series) : bool :=
  andb (orb (is_text (dtype c)) (is_integer (dtype c)))
       (andb (andb (Nat.eqb (nunique c) n_rows) (Nat.ltb 0 n_rows))
             (forallb notna (values c))).

(** Every redundant entry of a state is one of [names]. *)
Definition redundant_within (names : list string) (st : StructState) : Prop :=
  incl (redundant st) names.

(** A step that leaves no flag behind found no flag and added no redundant
    column. *)
Definition quiet_step {A : Type} (f : StructState -> A -> StructState) : Prop :=
  forall st x, flags (f st x) = [] ->
               flags st = [] /\ redundant (f st x) = redundant st.


(** The result for a table without usable temporal column. *)
Definition no_temporal_result : OperationalResult :=
  {| temporal_reliability_score := 0.5;
     operational_risk_flags := [NoTemporalColumnFlag];
     has_temporal_column := false;
     latest_update_lag_days := None |}.

(** Every check either passed or left a violation. *)
Definition tally_ok (t : Tally) : Prop :=
  (passed t + List.length (violations t))%nat = total_checks t.

(** The result of [evaluate_logical] when no check applies. *)
Definition logical_default (r : LogicalResult) : Prop :=
  logical_integrity_score r == 0.85
  /\ violation_rate r == 0
  /\ violations_summary r = [].

(** [t'] has every violation of [t]. *)
Definition tally_extends (t t' : Tally) : Prop :=
  incl (violations t) (violations t').




(** A datetime column without any value, ahead of one with values. *)
Definition unset_column : Series :=
  {| name := "created_at"; dtype := dt_datetime64; values := [None; None] |}.

Definition filled_column : Series :=
  {| name := "updated_at"; dtype := dt_datetime64;
     values := [Some (VTime (19989 * day)); Some (VTime (19990 * day))] |}.

Definition shadowed_table : DataFrame :=
  {| columns := [unset_column; filled_column]; n_rows := 2 |}.

Definition shadowed_profile : DatasetProfile :=
  @create_profile bare_engine shadowed_table "csv".









(** An order identifier used twice. *)
Definition order_id_column : Series :=
  {| name := "order_id"; dtype := dt_int64;
     values := [Some (VInt 7); Some (VInt 7)] |}.

Definition orders_table : DataFrame :=
  {| columns := [order_id_column]; n_rows := 2 |}.

Definition orders_profile : DatasetProfile :=
  @create_profile bare_engine orders_table "csv".

(** The first column of [revenue_table]. *)
Definition revenue_column : Series :=
  {| name := "revenue"; dtype := dt_float64;
     values := [Some (VFloat (-1))] |}.

(* ================================================================== *)
(** * Properties *)
(* ================================================================== *)

(** ** Comparisons, [max], [min] and [round] *)

Lemma ltb_lt (a b : Q) : Py.ltb a b = true <-> a < b.
Proof.
  unfold Py.ltb. rewrite negb_true_iff.
  split; intro Hab.
  - apply Qnot_le_lt. intro Hle. apply Qle_bool_iff in Hle. congruence.
  - destruct (Qle_bool b a) eqn:E; [|reflexivity].
    apply Qle_bool_iff in E. apply Qlt_not_le in Hab. contradiction.
Qed.

Lemma ltb_ge (a b : Q) : Py.ltb a b = false <-> b <= a.
Proof.
  unfold Py.ltb. rewrite negb_false_iff. apply Qle_bool_iff.
Qed.

Lemma gtb_gt (a b : Q) : Py.gtb a b = true <-> b < a.
Proof. apply ltb_lt. Qed.

Lemma gtb_le (a b : Q) : Py.gtb a b = false <-> a <= b.
Proof. apply ltb_ge. Qed.

Lemma geb_ge (a b : Q) : Py.geb a b = true <-> b <= a.
Proof. apply Qle_bool_iff. Qed.

Lemma geb_lt (a b : Q) : Py.geb a b = false <-> a < b.
Proof.
  unfold Py.geb. split; intro Hab.
  - apply Qnot_le_lt. intro Hle. apply Qle_bool_iff in Hle. congruence.
  - destruct (Qle_bool b a) eqn:E; [|reflexivity].
    apply Qle_bool_iff in E. apply Qlt_not_le in Hab. contradiction.
Qed.

(** Case analysis on a comparison, leaving the order fact in the context. *)
Ltac case_ltb a b :=
  let E := fresh "E" in
  destruct (Py.ltb a b) eqn:E; [apply ltb_lt in E | apply ltb_ge in E].

Ltac case_gtb a b :=
  let E := fresh "E" in
  destruct (Py.gtb a b) eqn:E; [apply gtb_gt in E | apply gtb_le in E].

Ltac case_geb a b :=
  let E := fresh "E" in
  destruct (Py.geb a b) eqn:E; [apply geb_ge in E | apply geb_lt in E].

Lemma max_is_Qmax (a b : Q) : Py.max a b == Qmax a b.
Proof.
  unfold Py.max. destruct (Py.gtb b a) eqn:E.
  - apply gtb_gt in E. symmetry. apply Q.max_r. lra.
  - apply gtb_le in E. symmetry. apply Q.max_l. exact E.
Qed.

Lemma min_is_Qmin (a b : Q) : Py.min a b == Qmin a b.
Proof.
  unfold Py.min. destruct (Py.ltb b a) eqn:E.
  - apply ltb_lt in E. symmetry. apply Q.min_r. lra.
  - apply ltb_ge in E. symmetry. apply Q.min_l. exact E.
Qed.

#[global] Instance max_proper : Proper (Qeq ==> Qeq ==> Qeq) Py.max.
Proof.
  intros a a' Ha b b' Hb.
  transitivity (Qmax a b); [apply max_is_Qmax|].
  transitivity (Qmax a' b'); [|symmetry; apply max_is_Qmax].
  apply Q.max_compat; assumption.
Qed.

#[global] Instance min_proper : Proper (Qeq ==> Qeq ==> Qeq) Py.min.
Proof.
  intros a a' Ha b b' Hb.
  transitivity (Qmin a b); [apply min_is_Qmin|].
  transitivity (Qmin a' b'); [|symmetry; apply min_is_Qmin].
  apply Q.min_compat; assumption.
Qed.

Lemma max_cases (a b : Q) :
  (a < b /\ Py.max a b = b) \/ (b <= a /\ Py.max a b = a).
Proof.
  unfold Py.max. destruct (Py.gtb b a) eqn:E.
  - apply gtb_gt in E. left. split; [exact E | reflexivity].
  - apply gtb_le in E. right. split; [exact E | reflexivity].
Qed.

Lemma min_cases (a b : Q) :
  (b < a /\ Py.min a b = b) \/ (a <= b /\ Py.min a b = a).
Proof.
  unfold Py.min. destruct (Py.ltb b a) eqn:E.
  - apply ltb_lt in E. left. split; [exact E | reflexivity].
  - apply ltb_ge in E. right. split; [exact E | reflexivity].
Qed.



#[global] Instance ltb_proper : Proper (Qeq ==> Qeq ==> eq) Py.ltb.
Proof.
  intros a a' Ha b b' Hb.
  destruct (Py.ltb a' b') eqn:E.
  - apply ltb_lt in E. apply ltb_lt. lra.
  - apply ltb_ge in E. apply ltb_ge. lra.
Qed.

#[global] Instance round_half_even_proper :
  Proper (Qeq ==> eq) Py.round_half_even.
Proof.
  intros a b Hab. unfold Py.round_half_even, Py.gtb.
  rewrite (Qfloor_comp a b Hab).
  assert (Hr : a - inject_Z (Qfloor b) == b - inject_Z (Qfloor b)) by lra.
  rewrite !(ltb_proper _ _ Hr _ _ (Qeq_refl _)).
  rewrite !(ltb_proper _ _ (Qeq_refl _) _ _ Hr).
  reflexivity.
Qed.

#[global] Instance round_proper : Proper (Qeq ==> eq ==> Qeq) Py.round.
Proof.
  intros a b Hab n n' <-. unfold Py.round.
  assert (Hm : a * inject_Z (Z.pos (Py.pow10 n))
            == b * inject_Z (Z.pos (Py.pow10 n)))
    by (rewrite Hab; reflexivity).
  rewrite (round_half_even_proper _ _ Hm). reflexivity.
Qed.

(** Rounding moves a number by at most one half. *)
Lemma round_half_even_close (q : Q) :
  q - (1 # 2) <= inject_Z (Py.round_half_even q) <= q + (1 # 2).
Proof.
  unfold Py.round_half_even. cbv zeta.
  pose proof (Qfloor_le q) as Hlo.
  pose proof (Qlt_floor q) as Hhi.
  rewrite inject_Z_plus in Hhi. change (inject_Z 1) with 1 in Hhi.
  case_ltb (q - inject_Z (Qfloor q)) (1 # 2).
  - lra.
  - case_gtb (q - inject_Z (Qfloor q)) (1 # 2).
    + rewrite inject_Z_plus. change (inject_Z 1) with 1. lra.
    + destruct (Z.even (Qfloor q)).
      * lra.
      * rewrite inject_Z_plus. change (inject_Z 1) with 1. lra.
Qed.

(** An integer is its own rounding. *)
Lemma round_half_even_inject (z : Z) : Py.round_half_even (inject_Z z) = z.
Proof.
  unfold Py.round_half_even. rewrite Qfloor_Z.
  assert (H : Py.ltb (inject_Z z - inject_Z z) (1 # 2) = true)
    by (apply ltb_lt; lra).
  rewrite H. reflexivity.
Qed.

(** Rounding keeps a number between two integers that bound it. *)
Lemma round_half_even_between (q : Q) (lo hi : Z) :
  inject_Z lo <= q <= inject_Z hi ->
  (lo <= Py.round_half_even q <= hi)%Z.
Proof.
  intros [Hlo Hhi].
  pose proof (round_half_even_close q) as [Ha Hb].
  split.
  - assert (H : inject_Z (lo - 1) < inject_Z (Py.round_half_even q)).
    { replace (lo - 1)%Z with (lo + -1)%Z by lia.
      rewrite inject_Z_plus. change (inject_Z (-1)) with (-1). lra. }
    rewrite <- Zlt_Qlt in H. lia.
  - assert (H : inject_Z (Py.round_half_even q) < inject_Z (hi + 1)).
    { rewrite inject_Z_plus. change (inject_Z 1) with 1. lra. }
    rewrite <- Zlt_Qlt in H. lia.
Qed.

Lemma Qmake_as_div (z : Z) (p : positive) :
  z # p == inject_Z z / inject_Z (Z.pos p).
Proof. rewrite Qmake_Qdiv. reflexivity. Qed.

Lemma inject_pos_gt0 (p : positive) : 0 < inject_Z (Z.pos p).
Proof. change 0 with (inject_Z 0). rewrite <- Zlt_Qlt. lia. Qed.

(** [round(x, n)] is a multiple of [10^-n] within half a unit of [x]. *)
Lemma round_close (x : Q) (n : nat) :
  Qabs (Py.round x n - x) <= 1 # (2 * Py.pow10 n).
Proof.
  unfold Py.round. cbv zeta.
  pose proof (round_half_even_close (x * inject_Z (Z.pos (Py.pow10 n)))) as [Ha Hb].
  pose proof (inject_pos_gt0 (Py.pow10 n)) as Hp.
  set (P := inject_Z (Z.pos (Py.pow10 n))) in *.
  set (r := Py.round_half_even (x * P)) in *.
  assert (E1 : r # Py.pow10 n == inject_Z r / P) by apply Qmake_as_div.
  assert (E2 : 1 # (2 * Py.pow10 n) == (1 # 2) / P).
  { unfold P. unfold Qeq, Qdiv, Qmult, Qinv; simpl. lia. }
  rewrite E1, E2.
  assert (Hy : inject_Z r / P * P == inject_Z r) by (field; lra).
  assert (He : (1 # 2) / P * P == 1 # 2) by (field; lra).
  apply Qabs_Qle_condition. split.
  - apply (Qmult_le_r _ _ P Hp).
    setoid_replace ((inject_Z r / P - x) * P)
      with (inject_Z r / P * P - x * P) by ring.
    setoid_replace (- ((1 # 2) / P) * P) with (- ((1 # 2) / P * P)) by ring.
    rewrite Hy, He. lra.
  - apply (Qmult_le_r _ _ P Hp).
    setoid_replace ((inject_Z r / P - x) * P)
      with (inject_Z r / P * P - x * P) by ring.
    rewrite Hy, He. lra.
Qed.

(** A number of the unit interval stays there when rounded. *)
Lemma round_unit (x : Q) (n : nat) : 0 <= x <= 1 -> 0 <= Py.round x n <= 1.
Proof.
  intros [H0 H1]. unfold Py.round. cbv zeta.
  pose proof (inject_pos_gt0 (Py.pow10 n)) as Hp.
  destruct (round_half_even_between (x * inject_Z (Z.pos (Py.pow10 n))) 0 (Z.pos (Py.pow10 n)))
    as [Ha Hb].
  { change (inject_Z 0) with 0. split; [apply Qmult_le_0_compat; lra|].
    setoid_replace (inject_Z (Z.pos (Py.pow10 n)))
      with (1 * inject_Z (Z.pos (Py.pow10 n))) at 2 by ring.
    apply Qmult_le_compat_r; lra. }
  unfold Qle; simpl. split; lia.
Qed.

(** A multiple of [10^-n] is its own rounding. *)
Lemma round_exact (z : Z) (n : nat) (x : Q) :
  x == z # Py.pow10 n -> Py.round x n == x.
Proof.
  intro Hx. unfold Py.round. cbv zeta.
  assert (Hm : x * inject_Z (Z.pos (Py.pow10 n)) == inject_Z z).
  { rewrite Hx, Qmake_as_div. field.
    pose proof (inject_pos_gt0 (Py.pow10 n)). lra. }
  rewrite (round_half_even_proper _ _ Hm), round_half_even_inject.
  symmetry. exact Hx.
Qed.

(** ** Trust aggregator *)

(** The tier is decided by the three thresholds, each an inclusive lower
    bound. *)
Lemma tier_of_edti_spec (e : Q) :
  (0.80 <= e /\ tier_of_edti e = DECISION_READY)
  \/ (0.60 <= e < 0.80 /\ tier_of_edti e = REVIEW_RECOMMENDED)
  \/ (0.40 <= e < 0.60 /\ tier_of_edti e = RISK_PRESENT)
  \/ (e < 0.40 /\ tier_of_edti e = NOT_TRUSTWORTHY).
Proof.
  unfold tier_of_edti.
  case_geb e 0.80; [left; split; [lra | reflexivity]|].
  case_geb e 0.60; [right; left; split; [lra | reflexivity]|].
  case_geb e 0.40; [right; right; left; split; [lra | reflexivity]|].
  right; right; right. split; [lra | reflexivity].
Qed.

(** The three thresholds are reached, and 0.7999 stays below the first. *)
Example edti_at_boundary_080 :
  let r := compute_edti (uniform_structural 0.8) (uniform_governance 0.2)
             (uniform_operational 0.8) (uniform_logical 0.8)
             (uniform_analytical 0.8 0.2) in
  edti_score r == 0.80 /\ trust_tier r = DECISION_READY.
Proof. split; vm_compute; reflexivity. Qed.

Example edti_at_boundary_060 :
  let r := compute_edti (uniform_structural 0.6) (uniform_governance 0.4)
             (uniform_operational 0.6) (uniform_logical 0.6)
             (uniform_analytical 0.6 0.4) in
  edti_score r == 0.60 /\ trust_tier r = REVIEW_RECOMMENDED.
Proof. split; vm_compute; reflexivity. Qed.

Example edti_at_boundary_040 :
  let r := compute_edti (uniform_structural 0.4) (uniform_governance 0.6)
             (uniform_operational 0.4) (uniform_logical 0.4)
             (uniform_analytical 0.4 0.6) in
  edti_score r == 0.40 /\ trust_tier r = RISK_PRESENT.
Proof. split; vm_compute; reflexivity. Qed.

Example edti_below_boundary_080 :
  let r := compute_edti (uniform_structural 0.7995) (uniform_governance 0.2)
             (uniform_operational 0.8) (uniform_logical 0.8)
             (uniform_analytical 0.8 0.2) in
  edti_score r == 0.7999 /\ trust_tier r = REVIEW_RECOMMENDED.
Proof. split; vm_compute; reflexivity. Qed.


(** C2. The tier of the EDTI that [compute_edti] returns follows the
    thresholds with inclusive lower bounds: at least 0.80 Decision-Ready,
    from 0.60 below 0.80 Review Recommended, from 0.40 below 0.60 Risk
    Present, below 0.40 Not Trustworthy; an EDTI of exactly 0.80, 0.60 and
    0.40 gives Decision-Ready, Review Recommended and Risk Present. *)
Theorem trust_tier_thresholds
    (s : StructuralResult) (g : GovernanceResult) (o : OperationalResult)
    (l : LogicalResult) (a : AnalyticalResult) :
  let r := compute_edti s g o l a in
  ((0.80 <= edti_score r /\ trust_tier r = DECISION_READY)
   \/ (0.60 <= edti_score r < 0.80 /\ trust_tier r = REVIEW_RECOMMENDED)
   \/ (0.40 <= edti_score r < 0.60 /\ trust_tier r = RISK_PRESENT)
   \/ (edti_score r < 0.40 /\ trust_tier r = NOT_TRUSTWORTHY))
  /\ trust_tier r = tier_of_edti (edti_score r)
  /\ tier_of_edti 0.80 = DECISION_READY
  /\ tier_of_edti 0.60 = REVIEW_RECOMMENDED
  /\ tier_of_edti 0.40 = RISK_PRESENT.
Proof.
  cbv zeta. split; [|repeat split].
  change (trust_tier (compute_edti s g o l a))
    with (tier_of_edti (edti_score (compute_edti s g o l a))).
  apply tier_of_edti_spec.
Qed.

(** ** Ranges *)

Lemma Qnat_nonneg (n : nat) : 0 <= Qnat n.
Proof.
  unfold Qnat. change 0 with (inject_Z 0). rewrite <- Zle_Qle. lia.
Qed.

Lemma Qdiv_nonneg (a b : Q) : 0 <= a -> 0 <= b -> 0 <= a / b.
Proof.
  intros Ha Hb. unfold Qdiv. apply Qmult_le_0_compat; [exact Ha|].
  apply Qinv_le_0_compat. exact Hb.
Qed.







(** ** Governance layer *)


Lemma setitem_fresh {V : Type} (d : list (string * V)) (k : string) (v : V) :
  ~ In k (keys d) -> setitem d k v = d ++ [(k, v)].
Proof.
  induction d as [|[k' v'] d IH]; intro Hk; [reflexivity|].
  cbn [setitem]. destruct (String.eqb k k') eqn:E.
  - apply String.eqb_eq in E. subst. exfalso. apply Hk. left. reflexivity.
  - rewrite IH; [reflexivity|]. intro Hin. apply Hk. right. exact Hin.
Qed.


Lemma reasons_risk_level (rs : list string) (w : Q) :
  reasons_risk rs = Some w -> In w risk_levels.
Proof.
  unfold reasons_risk, risk_levels.
  repeat match goal with |- context [if ?b then _ else _] => destruct b end;
    intro Hw; inversion Hw; subst; cbn; auto.
Qed.

Lemma max_in_levels (m w : Q) :
  In m risk_levels -> In w risk_levels -> In (Py.max m w) risk_levels.
Proof.
  intros Hm Hw. destruct (max_cases m w) as [[_ ->] | [_ ->]]; assumption.
Qed.

Lemma levels_nonneg (m : Q) : In m risk_levels -> 0 <= m <= 1.
Proof.
  unfold risk_levels. cbn.
  intros [<- | [<- | [<- | [<- | []]]]]; lra.
Qed.

Section GovernanceFold.
Context `{TabularEngine}.

Lemma reasons_risk_nil : reasons_risk [] = None.
Proof. reflexivity. Qed.

Lemma governance_step_skip (st : list (string * list string) * Q) (c : Series) :
  column_reasons c = [] -> governance_step st c = st.
Proof. intro E. unfold governance_step. rewrite E. reflexivity. Qed.

Lemma governance_step_hit (d : list (string * list string)) (m : Q)
    (c : Series) (r : string) (rs : list string) :
  column_reasons c = r :: rs ->
  governance_step (d, m) c
  = (setitem d (name c) (dedup (r :: rs) []),
     match reasons_risk (r :: rs) with
     | Some w => Py.max m w
     | None => m
     end).
Proof.
  intro E. unfold governance_step. rewrite E. cbn [fst snd].
  destruct (reasons_risk (r :: rs)); reflexivity.
Qed.

Lemma fold_max_nonneg (cols : list Series) :
  0 <= fold_right (fun c a => Qmax (column_risk_weight c) a) 0 cols.
Proof.
  induction cols as [|x xs IHx]; cbn; [lra|].
  eapply Qle_trans; [exact IHx | apply Q.le_max_r].
Qed.

(** The loop over the columns: the map gains one key per sensitive column,
    in column order, and [max_risk] becomes the largest weight met. *)
Lemma governance_fold (cols : list Series) :
  forall (d : list (string * list string)) (m : Q),
    NoDup (keys d ++ map name cols) ->
    In m risk_levels ->
    let st := fold_left governance_step cols (d, m) in
    keys (fst st) = keys d ++ map name (filter is_sensitive cols)
    /\ In (snd st) risk_levels
    /\ snd st == Qmax m (fold_right (fun c a => Qmax (column_risk_weight c) a) 0 cols).
Proof.
  induction cols as [|c cols IH]; intros d m Hnd Hm; cbv zeta.
  - cbn. rewrite app_nil_r. repeat split; [exact Hm|].
    symmetry. apply Q.max_l. apply levels_nonneg in Hm. lra.
  - cbn [fold_left filter fold_right].
    unfold is_sensitive at 1, column_risk_weight at 1.
    destruct (column_reasons c) as [|r rs] eqn:Er.
    + rewrite (governance_step_skip _ _ Er), reasons_risk_nil.
      destruct (IH d m) as (Hk & Hl & Hq); [|exact Hm|].
      { cbn [map] in Hnd. apply NoDup_remove_1 in Hnd. exact Hnd. }
      repeat split; [exact Hk | exact Hl |].
      rewrite Hq.
      rewrite (Q.max_r 0 _ (fold_max_nonneg cols)). reflexivity.
    + rewrite (governance_step_hit _ _ _ _ _ Er).
      assert (Hfresh : ~ In (name c) (keys d)).
      { cbn [map] in Hnd. apply NoDup_remove_2 in Hnd.
        intro Hin. apply Hnd. apply in_or_app. left. exact Hin. }
      rewrite (setitem_fresh d (name c) _ Hfresh).
      assert (Hnd' : NoDup (keys (d ++ [(name c, dedup (r :: rs) [])])
                            ++ map name cols)).
      { unfold keys. rewrite map_app. cbn [map fst].
        rewrite <- app_assoc. exact Hnd. }
      destruct (reasons_risk (r :: rs)) as [w|] eqn:Ew.
      * pose proof (reasons_risk_level _ _ Ew) as Hw.
        destruct (IH (d ++ [(name c, dedup (r :: rs) [])]) (Py.max m w))
          as (Hk & Hl & Hq); [exact Hnd' | apply max_in_levels; assumption|].
        repeat split; [|exact Hl|].
        { rewrite Hk. unfold keys. rewrite map_app. cbn [map fst].
          rewrite <- app_assoc. reflexivity. }
        rewrite Hq, max_is_Qmax. rewrite Q.max_assoc. reflexivity.
      * destruct (IH (d ++ [(name c, dedup (r :: rs) [])]) m)
          as (Hk & Hl & Hq); [exact Hnd' | exact Hm|].
        repeat split; [|exact Hl|].
        { rewrite Hk. unfold keys. rewrite map_app. cbn [map fst].
          rewrite <- app_assoc. reflexivity. }
        rewrite Hq.
        rewrite (Q.max_r 0 _ (fold_max_nonneg cols)). reflexivity.
Qed.
End GovernanceFold.

#[global] Instance geb_proper : Proper (Qeq ==> Qeq ==> eq) Py.geb.
Proof.
  intros a a' Ha b b' Hb.
  destruct (Py.geb a' b') eqn:E.
  - apply geb_ge in E. apply geb_ge. lra.
  - apply geb_lt in E. apply geb_lt. lra.
Qed.

Lemma Qnat_S (n : nat) : Qnat (S n) == Qnat n + 1.
Proof.
  unfold Qnat. rewrite Nat2Z.inj_succ. unfold Z.succ.
  rewrite inject_Z_plus. reflexivity.
Qed.

(** C7. The governance risk score is 0.1 when no sensitive column is found
    and min(1, 0.3 + 0.2 * count + 0.5 * max_risk) otherwise; the
    classification is High when max_risk >= 0.9 or count >= 5, otherwise
    Moderate when max_risk >= 0.5 or count >= 2, and Low otherwise. *)
Theorem governance_score_and_classification `{TabularEngine}
    (p : DatasetProfile) :
  well_formed p ->
  let r := evaluate_governance p in
  let n := sensitive_column_count (df p) in
  let m := overall_max_risk (df p) in
  List.length (sensitive_column_map r) = n
  /\ governance_risk_score r
     == (if Nat.eqb n 0 then 0.1 else Qmin 1 (0.3 + 0.2 * Qnat n + 0.5 * m))
  /\ sensitivity_classification r
     = (if orb (Py.geb m 0.9) (Nat.leb 5 n) then HIGH
        else if orb (Py.geb m 0.5) (Nat.leb 2 n) then MODERATE
        else LOW).
Proof.
  intros [_ Hnd]. cbv zeta.
  unfold evaluate_governance. cbv zeta.
  pose proof (governance_fold (columns (df p)) [] 0.0 Hnd) as Hfold.
  cbv zeta in Hfold.
  destruct (fold_left governance_step (columns (df p)) ([], 0.0))
    as [sm mr] eqn:Efold.
  cbn [fst snd keys map app] in Hfold.
  destruct Hfold as (Hk & Hl & Hq); [cbn; auto|].
  cbn [sensitive_column_map governance_risk_score sensitivity_classification].
  assert (Hlen : List.length sm = sensitive_column_count (df p)).
  { unfold sensitive_column_count.
    rewrite <- (length_map name), <- Hk. unfold keys. apply eq_sym, length_map. }
  assert (Hm : mr == overall_max_risk (df p)).
  { rewrite Hq. apply Q.max_r. unfold overall_max_risk.
    pose proof (fold_max_nonneg (columns (df p))). lra. }
  rewrite <- Hlen.
  split; [reflexivity|]. split.
  - destruct (List.length sm) as [|[|[|[|k]]]] eqn:En.
    + vm_compute. reflexivity.
    + cbn [Nat.ltb Nat.leb Nat.eqb]. rewrite <- Hm.
      unfold risk_levels in Hl. cbn in Hl.
      destruct Hl as [<- | [<- | [<- | [<- | []]]]]; vm_compute; reflexivity.
    + cbn [Nat.ltb Nat.leb Nat.eqb]. rewrite <- Hm.
      unfold risk_levels in Hl. cbn in Hl.
      destruct Hl as [<- | [<- | [<- | [<- | []]]]]; vm_compute; reflexivity.
    + cbn [Nat.ltb Nat.leb Nat.eqb]. rewrite <- Hm.
      unfold risk_levels in Hl. cbn in Hl.
      destruct Hl as [<- | [<- | [<- | [<- | []]]]]; vm_compute; reflexivity.
    + cbn [Nat.ltb Nat.leb Nat.eqb]. rewrite <- Hm.
      pose proof (levels_nonneg _ Hl) as [Hm0 _].
      pose proof (Qnat_nonneg k) as Hk0.
      assert (Hn : 4 <= Qnat (S (S (S (S k))))) by (rewrite !Qnat_S; lra).
      set (X := 0.3 + 0.2 * Qnat (S (S (S (S k)))) + mr * 0.5).
      assert (HX : 1 <= X) by (unfold X; lra).
      assert (E1 : Py.min 1.0 X = 1.0).
      { destruct (min_cases 1.0 X) as [[Hc _] | [_ ->]]; [lra | reflexivity]. }
      rewrite E1.
      transitivity 1; [vm_compute; reflexivity|].
      symmetry. apply Q.min_l. lra.
  - rewrite (geb_proper _ _ Hm _ _ (Qeq_refl 0.9)).
    rewrite (geb_proper _ _ Hm _ _ (Qeq_refl 0.5)). reflexivity.
Qed.

(** ** Every score is in the unit interval *)

Lemma governance_fold_level `{TabularEngine} (cols : list Series) :
  forall st : list (string * list string) * Q,
    In (snd st) risk_levels ->
    In (snd (fold_left governance_step cols st)) risk_levels.
Proof.
  induction cols as [|c cols IH]; intros [d m] Hm; [exact Hm|].
  cbn [fold_left]. apply IH.
  destruct (column_reasons c) as [|r rs] eqn:Er.
  - rewrite (governance_step_skip _ _ Er). exact Hm.
  - rewrite (governance_step_hit _ _ _ _ _ Er). cbn [snd] in *.
    destruct (reasons_risk (r :: rs)) eqn:Ew; [|exact Hm].
    apply max_in_levels; [exact Hm|]. eapply reasons_risk_level. exact Ew.
Qed.






(** ** Logical layer *)

Lemma filter_none {A : Type} (f : A -> bool) (l : list A) :
  (forall x, In x l -> f x = false) -> filter f l = [].
Proof.
  induction l as [|x l IH]; intro Hf; [reflexivity|].
  cbn [filter]. rewrite (Hf x (or_introl eq_refl)).
  apply IH. intros y Hy. apply Hf. right. exact Hy.
Qed.

Lemma col_like_sub (n : string) (ps qs : list string) :
  (forall p, In p ps -> In p qs) ->
  _col_like n qs = false -> _col_like n ps = false.
Proof.
  unfold _col_like. intros Hsub Hq.
  destruct (existsb (fun p => contains p (lower n)) ps) eqn:E; [|reflexivity].
  apply existsb_exists in E. destruct E as (x & Hx & Hc).
  rewrite <- Hq. symmetry. apply existsb_exists.
  exists x. split; [apply Hsub; exact Hx | exact Hc].
Qed.

(** A table none of whose column names matches a rule pattern gets no
    check at all. *)
Lemma no_rule_column_no_check (d : DataFrame) :
  (forall c, In c (columns d) -> _col_like (name c) rule_patterns = false) ->
  total_checks (logical_tally d) = 0%nat.
Proof.
  intro Hno. unfold logical_tally. cbv zeta.
  assert (Hsub : forall ps, (forall p, In p ps -> In p rule_patterns) ->
                 forall g, filter (fun c => andb (_col_like (name c) ps) (g c))
                                  (columns d) = []).
  { intros ps Hps g. apply filter_none. intros c Hc.
    rewrite (col_like_sub _ ps rule_patterns Hps (Hno c Hc)). reflexivity. }
  rewrite (Hsub ["revenue"; "sales"; "amount"]); [|cbn; intuition].
  rewrite (Hsub ["qty"; "quantity"; "count"]); [|cbn; intuition].
  rewrite (Hsub ["id"; "transaction"; "txn"; "key"]); [|cbn; intuition].
  reflexivity.
Qed.



(** ** Structural layer *)

Lemma extends_refl (st : StructState) : extends st st.
Proof. split; apply incl_refl. Qed.

Lemma extends_trans (a b c : StructState) :
  extends a b -> extends b c -> extends a c.
Proof. intros [H1 H2] [H3 H4]. split; eapply incl_tran; eassumption. Qed.

Lemma extends_add_flag (f : StructuralFlag) (st : StructState) :
  extends st (add_flag f st).
Proof. split; cbn; [apply incl_appl|]; apply incl_refl. Qed.

Lemma extends_add_redundant (c : string) (st : StructState) :
  extends st (add_redundant c st).
Proof. split; cbn; [|apply incl_appl]; apply incl_refl. Qed.

Lemma extends_add_candidate_pk (c : string) (st : StructState) :
  extends st (add_candidate_pk c st).
Proof. split; cbn; apply incl_refl. Qed.

Ltac extends_step :=
  repeat match goal with
         | |- extends ?st ?st => apply extends_refl
         | |- extends _ (if ?b then _ else _) => destruct b
         | |- extends _ (match ?x with Some _ => _ | None => _ end) => destruct x
         | |- extends _ (let '(_, _) := ?x in _) => destruct x
         | |- extends ?st (add_flag _ ?st') =>
             apply (extends_trans st st'); [|apply extends_add_flag]
         | |- extends ?st (add_redundant _ ?st') =>
             apply (extends_trans st st'); [|apply extends_add_redundant]
         | |- extends ?st (add_candidate_pk _ ?st') =>
             apply (extends_trans st st'); [|apply extends_add_candidate_pk]
         end.

Lemma extends_fold {A : Type} (f : StructState -> A -> StructState)
    (l : list A) :
  (forall st x, extends st (f st x)) ->
  forall st, extends st (fold_left f l st).
Proof.
  intro Hf. induction l as [|x l IH]; intro st; cbn [fold_left].
  - apply extends_refl.
  - eapply extends_trans; [apply Hf | apply IH].
Qed.

Lemma identifier_step_extends (n : nat) (st : StructState) (c : Series) :
  extends st (identifier_step n st c).
Proof. unfold identifier_step. cbv zeta. extends_step. Qed.

Lemma near_constant_step_extends `{TabularEngine} (n : nat)
    (st : StructState) (c : Series) :
  extends st (near_constant_step n st c).
Proof. unfold near_constant_step. extends_step. Qed.

Lemma correlation_step_extends (cols : list Series) (st : StructState) :
  extends st (correlation_step cols st).
Proof.
  unfold correlation_step. destruct (Nat.leb 2 _); [|apply extends_refl].
  apply extends_fold. intros st1 x.
  apply extends_fold. intros st2 y. extends_step.
Qed.

Lemma type_inconsistency_step_extends `{TabularEngine}
    (st : StructState) (c : Series) :
  extends st (type_inconsistency_step st c).
Proof. unfold type_inconsistency_step. cbv zeta. extends_step. Qed.

Lemma mem_In (x : string) (l : list string) : mem x l = true <-> In x l.
Proof.
  unfold mem. rewrite existsb_exists. split.
  - intros (y & Hy & E). apply String.eqb_eq in E. subst. exact Hy.
  - intro Hx. exists x. split; [exact Hx | apply String.eqb_refl].
Qed.

(** Deduplication keeps every name that was not seen before. *)
Lemma dedup_In (x : string) (l : list string) :
  forall seen, In x l -> ~ In x seen -> In x (dedup l seen).
Proof.
  induction l as [|y l IH]; intros seen Hx Hs; [contradiction|].
  cbn [dedup]. destruct (mem y seen) eqn:E.
  - destruct Hx as [-> | Hx].
    + apply mem_In in E. contradiction.
    + apply IH; assumption.
  - destruct Hx as [-> | Hx]; [left; reflexivity|].
    destruct (String.eqb x y) eqn:Exy.
    + apply String.eqb_eq in Exy. subst. left. reflexivity.
    + right. apply IH; [exact Hx|].
      intros [Hy | Hy]; [|contradiction].
      subst. rewrite String.eqb_refl in Exy. discriminate.
Qed.

Lemma value_eqb_refl (v : Value) : value_eqb v v = true.
Proof.
  destruct v; cbn.
  - apply Z.eqb_refl.
  - apply Qeq_bool_refl.
  - apply String.eqb_refl.
  - destruct b; reflexivity.
  - apply Z.eqb_refl.
Qed.

Lemma dropna_repeat (v : Value) (n : nat) :
  dropna (repeat (Some v) n) = repeat v n.
Proof.
  induction n as [|n IH]; [reflexivity|]. cbn. rewrite IH. reflexivity.
Qed.

Lemma distinct_repeat_seen (v : Value) (n : nat) (seen : list Value) :
  distinct value_eqb (repeat v n) (v :: seen) = [].
Proof.
  induction n as [|n IH]; [reflexivity|].
  cbn [repeat distinct existsb]. rewrite value_eqb_refl. exact IH.
Qed.

(** A column whose cells all hold the same value has one distinct value. *)
Lemma nunique_constant (c : Series) (v : Value) (n : nat) :
  values c = repeat (Some v) (S n) -> nunique c = 1%nat.
Proof.
  intro Hv. unfold nunique. rewrite Hv, dropna_repeat.
  cbn [repeat distinct existsb]. rewrite distinct_repeat_seen. reflexivity.
Qed.

(** The identifier loop reports a constant text or integer column. *)
Lemma identifier_fold_constant (n : nat) (c : Series) (cols : list Series) :
  (1 < n)%nat ->
  In c cols ->
  orb (is_text (dtype c)) (is_integer (dtype c)) = true ->
  nunique c = 1%nat ->
  forall st,
    let st' := fold_left (identifier_step n) cols st in
    In (ConstantColumnFlag (name c)) (flags st')
    /\ In (name c) (redundant st').
Proof.
  intros Hn Hin Hty Huniq.
  induction cols as [|x cols IH]; [contradiction|].
  intro st. cbn [fold_left]. destruct Hin as [-> | Hin].
  - pose proof (extends_fold (identifier_step n) cols
                  (identifier_step_extends n) (identifier_step n st c))
      as [Hf Hr].
    assert (Hstep : In (ConstantColumnFlag (name c))
                       (flags (identifier_step n st c))
                    /\ In (name c) (redundant (identifier_step n st c))).
    { unfold identifier_step. rewrite Hty, Huniq. cbv zeta.
      assert (E : Nat.ltb 1 n = true) by (apply Nat.ltb_lt; exact Hn).
      rewrite E. cbn [Nat.eqb andb].
      split; cbn [flags redundant add_flag add_redundant];
        apply in_or_app; right; left; reflexivity. }
    destruct Hstep as [H1 H2]. split; [apply Hf | apply Hr]; assumption.
  - apply IH. exact Hin.
Qed.

(** C5 (as amended). When the table has more than one row, every column of
    object, string or integer dtype with exactly one distinct value is
    reported with a constant-column flag and is a member of the
    redundant-feature list. *)
Theorem constant_column_reported `{TabularEngine} (p : DatasetProfile)
    (c : Series) :
  (1 < n_rows (df p))%nat ->
  In c (columns (df p)) ->
  orb (is_text (dtype c)) (is_integer (dtype c)) = true ->
  nunique c = 1%nat ->
  In (ConstantColumnFlag (name c))
     (structural_risk_flags (evaluate_structural p))
  /\ In (name c) (redundant_feature_list (evaluate_structural p)).
Proof.
  intros Hn Hin Hty Huniq.
  unfold evaluate_structural. cbv zeta.
  cbn [structural_risk_flags redundant_feature_list].
  match goal with
  | |- In _ (flags (fold_left type_inconsistency_step _
               (correlation_step _ (fold_left _ _ (fold_left _ _ ?st0))))) /\ _ =>
      destruct (identifier_fold_constant _ c _ Hn Hin Hty Huniq st0) as [Hf Hr];
      set (st1 := fold_left (identifier_step (n_rows (df p))) (columns (df p)) st0) in *
  end.
  pose proof (extends_fold (near_constant_step (n_rows (df p))) (columns (df p))
                (near_constant_step_extends _) st1) as Hnear.
  set (st2 := fold_left (near_constant_step _) _ st1) in *.
  pose proof (correlation_step_extends (select_number (df p)) st2) as Hcorr.
  set (st3 := correlation_step _ st2) in *.
  split.
  - match goal with |- In _ (flags (fold_left _ ?l st3)) =>
      pose proof (extends_fold type_inconsistency_step l
                    type_inconsistency_step_extends st3) as [Hty' _] end.
    apply Hty'. apply (proj1 Hcorr). apply (proj1 Hnear). exact Hf.
  - apply dedup_In; [|intros []].
    apply (proj2 Hcorr). apply (proj2 Hnear). exact Hr.
Qed.

(** On the table below the engine is never consulted: every engine gives
    the same structural result. *)
Lemma constant_float_any_engine `{TabularEngine} :
  evaluate_structural constant_float_profile
  = @evaluate_structural bare_engine constant_float_profile.
Proof. vm_compute. reflexivity. Qed.

(** C5 as stated fails on a float column: the same value in both rows of a
    two-row table, and neither a flag nor an entry of the redundant list. *)
Lemma constant_float_column_unreported :
  (1 < n_rows (df constant_float_profile))%nat
  /\ In rate_column (columns (df constant_float_profile))
  /\ nunique rate_column = 1%nat
  /\ structural_risk_flags
       (@evaluate_structural bare_engine constant_float_profile) = []
  /\ redundant_feature_list
       (@evaluate_structural bare_engine constant_float_profile) = [].
Proof.
  split; [cbn; lia|]. split; [right; left; reflexivity|].
  split; [reflexivity|].
  split; vm_compute; reflexivity.
Qed.

Lemma fold_left_fixed {A S : Type} (f : S -> A -> S) (l : list A) (st : S) :
  (forall x, In x l -> f st x = st) -> fold_left f l st = st.
Proof.
  induction l as [|x l IH]; intro Hf; [reflexivity|].
  cbn [fold_left]. rewrite (Hf x (or_introl eq_refl)).
  apply IH. intros y Hy. apply Hf. right. exact Hy.
Qed.

Section NoRows.
Context `{TabularEngine}.
Variable d : DataFrame.
Hypothesis Hwf : well_formed_df d.
Hypothesis Hrows : n_rows d = 0%nat.

Lemma no_rows_values (c : Series) : In c (columns d) -> values c = [].
Proof.
  intro Hc. destruct Hwf as [Hall _].
  rewrite Forall_forall in Hall. destruct (Hall c Hc) as [Hlen _].
  rewrite Hrows in Hlen. destruct (values c); [reflexivity | discriminate].
Qed.

Lemma no_rows_empty_columns : empty_columns d = map name (columns d).
Proof.
  unfold empty_columns. f_equal.
  assert (Hv : forall c, In c (columns d) -> forallb isna (values c) = true).
  { intros c Hc. rewrite (no_rows_values c Hc). reflexivity. }
  induction (columns d) as [|c cols IH]; [reflexivity|].
  cbn [filter]. rewrite (Hv c (or_introl eq_refl)).
  f_equal. apply IH. intros x Hx. apply Hv. right. exact Hx.
Qed.

Lemma no_rows_missing_ratio : missing_ratio_of d = 0.
Proof. unfold missing_ratio_of. rewrite Hrows. reflexivity. Qed.

Lemma no_rows_duplicated : df_duplicated_sum d = 0%nat.
Proof. unfold df_duplicated_sum, df_empty. rewrite Hrows. reflexivity. Qed.

Lemma no_rows_identifier (st : StructState) :
  fold_left (identifier_step 0) (columns d) st = st.
Proof.
  apply fold_left_fixed. intros c Hc. unfold identifier_step, nunique.
  rewrite (no_rows_values c Hc). cbn.
  destruct (orb _ _); reflexivity.
Qed.

Lemma no_rows_near_constant (st : StructState) :
  fold_left (near_constant_step 0) (columns d) st = st.
Proof.
  apply fold_left_fixed. intros c Hc. unfold near_constant_step.
  rewrite (no_rows_values c Hc). cbn.
  destruct (mem _ _); reflexivity.
Qed.

Lemma no_rows_abs_corr (t : Q) (a b : Series) :
  In a (columns d) -> abs_corr_gt t a b = false.
Proof.
  intro Ha. unfold abs_corr_gt. rewrite (no_rows_values a Ha). reflexivity.
Qed.

Lemma no_rows_correlation (st : StructState) :
  correlation_step (select_number d) st = st.
Proof.
  unfold correlation_step. destruct (Nat.leb 2 _); [|reflexivity].
  apply fold_left_fixed. intros [i a] Ha.
  apply fold_left_fixed. intros [j b] Hb. cbn [fst snd].
  rewrite no_rows_abs_corr.
  - rewrite andb_false_r. reflexivity.
  - unfold enumerate in Ha. apply in_combine_r in Ha.
    unfold select_number in Ha. apply filter_In in Ha. apply Ha.
Qed.

Lemma no_rows_type_inconsistency (l : list Series) (st : StructState) :
  incl l (columns d) -> fold_left type_inconsistency_step l st = st.
Proof.
  intro Hl. apply fold_left_fixed. intros c Hc.
  unfold type_inconsistency_step.
  rewrite (no_rows_values c (Hl c Hc)). reflexivity.
Qed.
End NoRows.

(** C9. On a table with no row and k >= 1 columns, every column counts as
    fully null, one empty-columns flag is emitted, the missing-value density
    is 0 and the structural integrity score is 1.0 - 0.1 * min(k, 3). *)
Theorem structural_on_zero_rows `{TabularEngine} (p : DatasetProfile)
    (k : nat) :
  well_formed p ->
  n_rows (df p) = 0%nat ->
  List.length (columns (df p)) = k ->
  (1 <= k)%nat ->
  let r := evaluate_structural p in
  let names := map name (columns (df p)) in
  empty_columns (df p) = names
  /\ missing_ratio_of (df p) = 0
  /\ structural_risk_flags r
     = [EmptyColumnsFlag k (firstn 5 names) (Nat.ltb 5 k)]
  /\ structural_integrity_score r == 1.0 - 0.1 * Qnat (Nat.min k 3).
Proof.
  intros Hwf Hrows Hk Hk1. cbv zeta.
  unfold evaluate_structural. cbv zeta.
  rewrite (no_rows_empty_columns _ Hwf Hrows).
  rewrite (no_rows_missing_ratio _ Hrows).
  rewrite (no_rows_duplicated _ Hrows).
  rewrite Hrows, length_map, Hk.
  assert (E : Nat.ltb 0 k = true) by (apply Nat.ltb_lt; lia).
  rewrite E.
  change (Py.gtb 0 0.3) with false. change (Py.gtb 0 0.1) with false.
  change (Py.gtb 0 0.5) with false. change (Py.gtb 0 0.2) with false.
  change (Py.gtb 0 0.05) with false.
  cbn [Nat.ltb Nat.leb Nat.max].
  change (Py.gtb (Qnat 0 / Qnat 1) 0.1) with false.
  cbv iota.
  rewrite (no_rows_identifier _ Hwf Hrows).
  rewrite (no_rows_near_constant _ Hwf Hrows).
  rewrite (no_rows_correlation _ Hwf Hrows).
  rewrite (no_rows_type_inconsistency _ Hwf Hrows);
    [|intros c Hc; apply filter_In in Hc; apply Hc].
  cbn [structural_risk_flags structural_integrity_score flags redundant
       add_flag app dedup List.length].
  repeat split.
  assert (Hred : Py.gtb (Qnat 0) (Qnat k * 0.3) = false).
  { apply gtb_le. pose proof (Qnat_nonneg k). change (Qnat 0) with 0. lra. }
  rewrite Hred.
  destruct k as [|[|[|k]]]; [lia | | |].
  - vm_compute. reflexivity.
  - vm_compute. reflexivity.
  - replace (Nat.min (S (S (S k))) 3) with 3%nat by lia.
    vm_compute. reflexivity.
Qed.

(** ** Operational layer *)





Lemma insert_sorted_sorted (x : Z) (l : list Z) :
  Sorted Z.le l -> Sorted Z.le (insert_sorted x l).
Proof.
  induction l as [|y l IH]; intro Hs; [repeat constructor|].
  cbn [insert_sorted]. destruct (Z.leb x y) eqn:E.
  - apply Z.leb_le in E. constructor; [exact Hs|]. constructor. exact E.
  - apply Z.leb_gt in E. inversion Hs as [|? ? Hs' Hhd]; subst.
    constructor; [apply IH; exact Hs'|].
    destruct l as [|z l]; cbn [insert_sorted].
    + constructor. lia.
    + destruct (Z.leb x z); constructor; [lia|].
      inversion Hhd; subst. assumption.
Qed.

(** into ascending order. *)
Lemma sort_values_sorted (l : list Z) : Sorted Z.le (sort_values l).
Proof.
  induction l as [|x l IH]; [constructor|].
  cbn [sort_values fold_right]. fold (sort_values l).
  apply insert_sorted_sorted. exact IH.
Qed.

(** The gaps between sorted timestamps are not negative. *)
Lemma diff_sorted_nonneg (l : list Z) :
  Sorted Z.le l -> Forall (fun d => (0 <= d)%Z) (diff l).
Proof.
  induction l as [|x l IH]; intro Hs; [constructor|].
  destruct l as [|y l]; [constructor|].
  inversion Hs as [|? ? Hs' Hhd]; subst. inversion Hhd; subst.
  cbn [diff]. constructor; [lia|]. apply IH. exact Hs'.
Qed.



(** The engine has no part in reading a datetime column. *)
Lemma repeated_timestamps_found `{TabularEngine} :
  _find_temporal_column (columns (df repeated_timestamps_profile))
  = Some [0; 0; 0; day]%Z.
Proof. reflexivity. Qed.

Lemma repeated_timestamps_any_engine `{TabularEngine} (now : Z) :
  evaluate_operational now repeated_timestamps_profile
  = @evaluate_operational bare_engine now repeated_timestamps_profile.
Proof.
  unfold evaluate_operational. cbv zeta.
  rewrite repeated_timestamps_found.
  rewrite (@repeated_timestamps_found bare_engine). reflexivity.
Qed.


(** ** Analytical layer *)

(** C10. On a table with no row, [evaluate_analytical] returns the default
    of the no-numeric-column case (utility 0.5, preparation 0.5, the three
    column lists empty, no anomaly density), whatever columns are declared:
    the numeric selection of such a table is empty. *)
Theorem analytical_on_zero_rows `{TabularEngine} (p : DatasetProfile) :
  n_rows (df p) = 0%nat ->
  evaluate_analytical p = analytical_default.
Proof.
  intro Hrows. unfold evaluate_analytical. cbv zeta.
  rewrite Hrows. reflexivity.
Qed.

(** The same default is returned when no column is numeric. *)
Lemma analytical_without_numeric_columns `{TabularEngine} (p : DatasetProfile) :
  select_number (df p) = [] ->
  evaluate_analytical p = analytical_default.
Proof.
  intro Hnum. unfold evaluate_analytical. cbv zeta.
  rewrite Hnum. cbn [List.length Nat.eqb]. rewrite orb_true_r. reflexivity.
Qed.

(** ** Dependence on the profile and on the clock *)




(** The engine has no part in reading a datetime column. *)
Lemma recent_timestamps_found `{TabularEngine} :
  _find_temporal_column (columns (df recent_profile))
  = Some [19989 * day; 19990 * day]%Z.
Proof. reflexivity. Qed.


(** ** The statements at concrete inputs *)

Lemma contacts_well_formed : well_formed contacts_profile.
Proof.
  split.
  - repeat constructor.
  - repeat constructor; cbn; intuition discriminate.
Defined.

Lemma no_row_well_formed : well_formed no_row_profile.
Proof.
  split.
  - repeat constructor.
  - repeat constructor; cbn; intuition discriminate.
Defined.


Lemma constant_column_reported_witness :
  (1 < n_rows (df constant_text_profile))%nat
  /\ In status_column (columns (df constant_text_profile))
  /\ orb (is_text (dtype status_column)) (is_integer (dtype status_column))
     = true
  /\ nunique status_column = 1%nat
  /\ In (ConstantColumnFlag "status")
        (structural_risk_flags
           (@evaluate_structural bare_engine constant_text_profile))
  /\ In "status"
        (redundant_feature_list
           (@evaluate_structural bare_engine constant_text_profile)).
Proof.
  assert (H1 : (1 < n_rows (df constant_text_profile))%nat) by (cbn; lia).
  assert (H2 : In status_column (columns (df constant_text_profile)))
    by (right; left; reflexivity).
  repeat (split; [first [exact H1 | exact H2 | reflexivity]|]).
  exact (@constant_column_reported bare_engine constant_text_profile
           status_column H1 H2 eq_refl eq_refl).
Defined.


Lemma governance_score_and_classification_witness :
  well_formed contacts_profile
  /\ @sensitive_column_count bare_engine (df contacts_profile) = 1%nat
  /\ List.length
       (sensitive_column_map (@evaluate_governance bare_engine contacts_profile))
     = 1%nat
  /\ governance_risk_score (@evaluate_governance bare_engine contacts_profile)
     == Qmin 1 (0.3 + 0.2 * Qnat 1
                + 0.5 * @overall_max_risk bare_engine (df contacts_profile))
  /\ sensitivity_classification
       (@evaluate_governance bare_engine contacts_profile)
     = MODERATE.
Proof.
  split; [exact contacts_well_formed|]. split; [reflexivity|].
  exact (@governance_score_and_classification bare_engine contacts_profile
           contacts_well_formed).
Defined.

Lemma structural_on_zero_rows_witness :
  well_formed no_row_profile
  /\ n_rows (df no_row_profile) = 0%nat
  /\ List.length (columns (df no_row_profile)) = 2%nat
  /\ (1 <= 2)%nat
  /\ empty_columns (df no_row_profile) = ["id"; "price"]
  /\ missing_ratio_of (df no_row_profile) = 0
  /\ structural_risk_flags (@evaluate_structural bare_engine no_row_profile)
     = [EmptyColumnsFlag 2 ["id"; "price"] false]
  /\ structural_integrity_score
       (@evaluate_structural bare_engine no_row_profile)
     == 1.0 - 0.1 * Qnat (Nat.min 2 3).
Proof.
  assert (H1 : (1 <= 2)%nat) by lia.
  split; [exact no_row_well_formed|].
  split; [reflexivity|]. split; [reflexivity|]. split; [exact H1|].
  exact (@structural_on_zero_rows bare_engine no_row_profile 2
           no_row_well_formed eq_refl eq_refl H1).
Defined.

Lemma analytical_on_zero_rows_witness :
  n_rows (df no_row_profile) = 0%nat
  /\ @evaluate_analytical bare_engine no_row_profile = analytical_default.
Proof.
  split; [reflexivity|].
  exact (@analytical_on_zero_rows bare_engine no_row_profile eq_refl).
Defined.

(* ================================================================== *)
(** * Further properties *)
(* ================================================================== *)

(** ** Order properties of the aggregator *)

(** Rounding to the nearest integer keeps the order. *)
Lemma round_half_even_mono (x y : Q) :
  x <= y -> (Py.round_half_even x <= Py.round_half_even y)%Z.
Proof.
  intro Hxy.
  destruct (Z_le_gt_dec (Py.round_half_even x) (Py.round_half_even y))
    as [Hle | Hgt]; [exact Hle | exfalso].
  pose proof (round_half_even_close x) as [Hx1 Hx2].
  pose proof (round_half_even_close y) as [Hy1 Hy2].
  assert (Hz : inject_Z (Py.round_half_even y + 1)
               <= inject_Z (Py.round_half_even x)).
  { rewrite <- Zle_Qle. lia. }
  rewrite inject_Z_plus in Hz. change (inject_Z 1) with 1 in Hz.
  assert (Heq : x == y) by lra.
  rewrite (round_half_even_proper _ _ Heq) in Hgt. lia.
Qed.

Lemma round_mono (x y : Q) (n : nat) :
  x <= y -> Py.round x n <= Py.round y n.
Proof.
  intro Hxy. unfold Py.round. cbv zeta.
  pose proof (inject_pos_gt0 (Py.pow10 n)) as Hp.
  assert (Hm : x * inject_Z (Z.pos (Py.pow10 n))
               <= y * inject_Z (Z.pos (Py.pow10 n))).
  { apply Qmult_le_compat_r; lra. }
  apply round_half_even_mono in Hm.
  unfold Qle. cbn [Qnum Qden]. apply Z.mul_le_mono_nonneg_r; lia.
Qed.

Lemma max_mono (a x y : Q) : x <= y -> Py.max a x <= Py.max a y.
Proof.
  intro Hxy. rewrite !max_is_Qmax. apply Q.max_le_compat_l. exact Hxy.
Qed.

Lemma min_mono (a x y : Q) : x <= y -> Py.min a x <= Py.min a y.
Proof.
  intro Hxy. rewrite !min_is_Qmin. apply Q.min_le_compat_l. exact Hxy.
Qed.

Lemma tier_of_edti_mono (x y : Q) :
  x <= y -> (tier_rank (tier_of_edti x) <= tier_rank (tier_of_edti y))%nat.
Proof.
  intro Hxy.
  destruct (tier_of_edti_spec x) as [[Hx ->] | [[Hx ->] | [[Hx ->] | [Hx ->]]]];
    destruct (tier_of_edti_spec y) as [[Hy ->] | [[Hy ->] | [[Hy ->] | [Hy ->]]]];
    cbn [tier_rank]; try lia; exfalso; lra.
Qed.

(** The weighted sum inside [compute_edti]. *)
Lemma edti_score_unfold (s : StructuralResult) (g : GovernanceResult)
    (o : OperationalResult) (l : LogicalResult) (a : AnalyticalResult) :
  edti_score (compute_edti s g o l a)
  = Py.round
      (Py.max 0 (Py.min 1
         (0.22 * structural_integrity_score s
          + 0.20 * Py.max 0 (1 - governance_risk_score g)
          + 0.18 * temporal_reliability_score o
          + 0.18 * logical_integrity_score l
          + 0.12 * analytics_utility_score a
          + 0.10 * Py.max 0 (1 - preparation_complexity_score a)))) 4.
Proof. reflexivity. Qed.

(** X1. Better layer results never lower the EDTI nor the tier: when each
    score is at least as good (integrity, reliability and utility scores not
    smaller, governance risk and preparation complexity not larger), the
    EDTI is not smaller and the tier is not worse. *)
Theorem compute_edti_monotone
    (s s' : StructuralResult) (g g' : GovernanceResult)
    (o o' : OperationalResult) (l l' : LogicalResult)
    (a a' : AnalyticalResult) :
  structural_integrity_score s <= structural_integrity_score s' ->
  governance_risk_score g' <= governance_risk_score g ->
  temporal_reliability_score o <= temporal_reliability_score o' ->
  logical_integrity_score l <= logical_integrity_score l' ->
  analytics_utility_score a <= analytics_utility_score a' ->
  preparation_complexity_score a' <= preparation_complexity_score a ->
  edti_score (compute_edti s g o l a) <= edti_score (compute_edti s' g' o' l' a')
  /\ (tier_rank (trust_tier (compute_edti s g o l a))
      <= tier_rank (trust_tier (compute_edti s' g' o' l' a')))%nat.
Proof.
  intros Hs Hg Ho Hl Hu Hp.
  assert (Hle : edti_score (compute_edti s g o l a)
                <= edti_score (compute_edti s' g' o' l' a')).
  { rewrite !edti_score_unfold.
    apply round_mono, max_mono, min_mono.
    pose proof (max_mono 0 (1 - governance_risk_score g)
                  (1 - governance_risk_score g') ltac:(lra)) as Hgt.
    pose proof (max_mono 0 (1 - preparation_complexity_score a)
                  (1 - preparation_complexity_score a') ltac:(lra)) as Hpt.
    lra. }
  split; [exact Hle|].
  change (trust_tier (compute_edti s g o l a))
    with (tier_of_edti (edti_score (compute_edti s g o l a))).
  change (trust_tier (compute_edti s' g' o' l' a'))
    with (tier_of_edti (edti_score (compute_edti s' g' o' l' a'))).
  apply tier_of_edti_mono. exact Hle.
Qed.


(** ** More on the governance layer *)

Lemma dedup_spec (l : list string) :
  forall seen,
    NoDup (dedup l seen)
    /\ (forall x, In x (dedup l seen) -> In x l /\ ~ In x seen).
Proof.
  induction l as [|y l IH]; intro seen; cbn [dedup].
  - split; [constructor | intros x []].
  - destruct (mem y seen) eqn:E.
    + destruct (IH seen) as [Hnd Hin]. split; [exact Hnd|].
      intros x Hx. destruct (Hin x Hx) as [H1 H2]. split; [right|]; assumption.
    + destruct (IH (y :: seen)) as [Hnd Hin]. split.
      * constructor; [|exact Hnd].
        intro Hy. destruct (Hin y Hy) as [_ H2]. apply H2. left. reflexivity.
      * intros x [<- | Hx].
        -- split; [left; reflexivity|].
           intro Hs. apply mem_In in Hs. congruence.
        -- destruct (Hin x Hx) as [H1 H2]. split; [right; exact H1|].
           intro Hs. apply H2. right. exact Hs.
Qed.

Lemma dedup_nonempty (x : string) (l : list string) : dedup (x :: l) [] <> [].
Proof. cbn. discriminate. Qed.

(** The map built by the column loop, entry by entry. *)
Lemma governance_fold_map `{TabularEngine} (cols : list Series) :
  forall (d : list (string * list string)) (m : Q),
    NoDup (keys d ++ map name cols) ->
    fst (fold_left governance_step cols (d, m))
    = d ++ map (fun c => (name c, dedup (column_reasons c) []))
               (filter is_sensitive cols).
Proof.
  induction cols as [|c cols IH]; intros d m Hnd.
  - cbn. rewrite app_nil_r. reflexivity.
  - cbn [fold_left filter]. unfold is_sensitive at 1.
    destruct (column_reasons c) as [|r rs] eqn:Er.
    + rewrite (governance_step_skip _ _ Er). apply IH.
      cbn [map] in Hnd. apply NoDup_remove_1 in Hnd. exact Hnd.
    + rewrite (governance_step_hit _ _ _ _ _ Er).
      assert (Hfresh : ~ In (name c) (keys d)).
      { cbn [map] in Hnd. apply NoDup_remove_2 in Hnd.
        intro Hin. apply Hnd. apply in_or_app. left. exact Hin. }
      rewrite (setitem_fresh d (name c) _ Hfresh).
      rewrite IH.
      * cbn [map]. rewrite Er, <- app_assoc. reflexivity.
      * unfold keys. rewrite map_app. cbn [map fst].
        rewrite <- app_assoc. exact Hnd.
Qed.

(** X3. The sensitive-column map has one entry per column with at least one
    reason, keyed by the column name, in column order; its keys are column
    names of the table, and each entry lists the reasons of its column, each
    reason once and at least one. *)
Theorem sensitive_column_map_entries `{TabularEngine} (p : DatasetProfile) :
  well_formed p ->
  let r := evaluate_governance p in
  keys (sensitive_column_map r)
  = map name (filter is_sensitive (columns (df p)))
  /\ incl (keys (sensitive_column_map r)) (map name (columns (df p)))
  /\ Forall (fun kv =>
               exists c, In c (columns (df p))
                         /\ name c = fst kv
                         /\ snd kv <> []
                         /\ NoDup (snd kv)
                         /\ (forall x, In x (snd kv) <-> In x (column_reasons c)))
            (sensitive_column_map r).
Proof.
  intros [_ Hnd]. cbv zeta.
  assert (Hmap : sensitive_column_map (evaluate_governance p)
                 = map (fun c => (name c, dedup (column_reasons c) []))
                       (filter is_sensitive (columns (df p)))).
  { unfold evaluate_governance. cbv zeta.
    pose proof (governance_fold_map (columns (df p)) [] 0.0 Hnd) as Hf.
    destruct (fold_left governance_step (columns (df p)) ([], 0.0)) as [sm mr].
    cbn [fst app] in Hf. cbn [sensitive_column_map]. exact Hf. }
  rewrite Hmap.
  assert (Hkeys : keys (map (fun c => (name c, dedup (column_reasons c) []))
                            (filter is_sensitive (columns (df p))))
                  = map name (filter is_sensitive (columns (df p)))).
  { unfold keys. rewrite map_map. reflexivity. }
  split; [exact Hkeys|]. split.
  - rewrite Hkeys. intros x Hx. apply in_map_iff in Hx.
    destruct Hx as (c & <- & Hc). apply filter_In in Hc. apply in_map. apply Hc.
  - apply Forall_forall. intros kv Hkv.
    apply in_map_iff in Hkv. destruct Hkv as (c & <- & Hc).
    apply filter_In in Hc. destruct Hc as [Hc Hs]. cbn [fst snd].
    exists c. split; [exact Hc|]. split; [reflexivity|].
    unfold is_sensitive in Hs.
    destruct (column_reasons c) as [|r rs] eqn:Er; [discriminate|].
    split; [apply dedup_nonempty|]. split; [apply dedup_spec|].
    intro x. split.
    + intro Hx. apply dedup_spec in Hx. apply Hx.
    + intro Hx. apply dedup_In; [exact Hx | intros []].
Qed.

Lemma setitem_nonempty {V : Type} (d : list (string * V)) (k : string) (v : V) :
  setitem d k v <> [].
Proof.
  destruct d as [|[k' v'] d]; cbn; [discriminate|].
  destruct (String.eqb k k'); discriminate.
Qed.

(** While the map is empty [max_risk] is still 0.0. *)
Lemma governance_fold_empty `{TabularEngine} (cols : list Series) :
  forall st : list (string * list string) * Q,
    (fst st = [] -> snd st = 0.0) ->
    fst (fold_left governance_step cols st) = [] ->
    snd (fold_left governance_step cols st) = 0.0.
Proof.
  induction cols as [|c cols IH]; intros [d m] Hst; [exact Hst|].
  cbn [fold_left]. apply IH.
  destruct (column_reasons c) as [|r rs] eqn:Er.
  - rewrite (governance_step_skip _ _ Er). exact Hst.
  - rewrite (governance_step_hit _ _ _ _ _ Er). cbn [fst].
    intro Hd. exfalso. exact (setitem_nonempty _ _ _ Hd).
Qed.

(** X4. Score and classification agree: a Low classification comes with a
    risk score of at most 0.5, Moderate with at least 0.7 and High with at
    least 0.95. *)
Theorem classification_bounds_score `{TabularEngine} (p : DatasetProfile) :
  let r := evaluate_governance p in
  match sensitivity_classification r with
  | LOW => governance_risk_score r <= 0.5
  | MODERATE => 0.7 <= governance_risk_score r
  | HIGH => 0.95 <= governance_risk_score r
  end.
Proof.
  cbv zeta. unfold evaluate_governance. cbv zeta.
  pose proof (governance_fold_level (columns (df p)) ([], 0.0)
                (or_introl eq_refl)) as Hl.
  pose proof (governance_fold_empty (columns (df p)) ([], 0.0)
                (fun _ => eq_refl)) as He.
  destruct (fold_left governance_step (columns (df p)) ([], 0.0)) as [sm mr].
  cbn [fst snd] in Hl, He.
  cbn [sensitivity_classification governance_risk_score].
  destruct sm as [|e1 sm].
  - rewrite (He eq_refl). vm_compute. discriminate.
  - clear He. unfold risk_levels in Hl. cbn [In] in Hl.
    cbn [List.length].
    destruct sm as [|e2 [|e3 [|e4 [|e5 sm]]]]; cbn [List.length].
    1-4: destruct Hl as [<- | [<- | [<- | [<- | []]]]]; vm_compute; discriminate.
    assert (E5 : Nat.leb 5 (S (S (S (S (S (List.length sm)))))) = true)
      by reflexivity.
    rewrite E5, orb_true_r.
    cbn [Nat.ltb Nat.leb].
    pose proof (levels_nonneg mr ltac:(unfold risk_levels; cbn [In]; tauto))
      as [Hm0 _].
    pose proof (Qnat_nonneg (List.length sm)) as Hk0.
    set (n := S (S (S (S (S (List.length sm)))))).
    assert (Hn : 5 <= Qnat n) by (unfold n; rewrite !Qnat_S; lra).
    set (X := 0.3 + 0.2 * Qnat n + mr * 0.5).
    assert (HX : 1 <= X) by (unfold X; lra).
    assert (E1 : Py.min 1.0 X = 1.0).
    { destruct (min_cases 1.0 X) as [[Hc _] | [_ ->]]; [lra | reflexivity]. }
    rewrite E1. vm_compute. discriminate.
Qed.

(** ** Columns named after a credential *)








(** ** More on the structural layer *)

Lemma redundant_within_fold {A : Type} (names : list string)
    (f : StructState -> A -> StructState) (l : list A) :
  (forall st x, In x l -> redundant_within names st ->
                redundant_within names (f st x)) ->
  forall st, redundant_within names st ->
             redundant_within names (fold_left f l st).
Proof.
  induction l as [|x l IH]; intros Hf st Hst; [exact Hst|].
  cbn [fold_left]. apply IH.
  - intros st' y Hy. apply Hf. right. exact Hy.
  - apply Hf; [left; reflexivity | exact Hst].
Qed.

Lemma redundant_within_add (names : list string) (c : string)
    (st : StructState) :
  In c names -> redundant_within names st ->
  redundant_within names (add_redundant c st).
Proof.
  intros Hc Hst x Hx. cbn [redundant add_redundant] in Hx.
  apply in_app_or in Hx. destruct Hx as [Hx | [<- | []]]; [apply Hst|]; assumption.
Qed.

Lemma identifier_step_within (names : list string) (n : nat)
    (st : StructState) (c : Series) :
  In (name c) names ->
  redundant_within names st -> redundant_within names (identifier_step n st c).
Proof.
  intros Hc Hst. unfold identifier_step. cbv zeta.
  destruct (orb _ _); [|exact Hst].
  destruct (andb (andb _ _) _); destruct (andb (Nat.eqb _ 1) _);
    cbn [add_flag add_candidate_pk redundant]; try exact Hst;
    apply (redundant_within_add names (name c)); assumption.
Qed.

Lemma near_constant_step_within `{TabularEngine} (names : list string)
    (n : nat) (st : StructState) (c : Series) :
  In (name c) names ->
  redundant_within names st ->
  redundant_within names (near_constant_step n st c).
Proof.
  intros Hc Hst. unfold near_constant_step.
  destruct (mem _ _); [exact Hst|].
  destruct (top_count _) as [[top k]|]; [|exact Hst].
  destruct (andb _ _); [|exact Hst].
  apply (redundant_within_add names (name c)); assumption.
Qed.

Lemma correlation_step_within (names : list string) (cols : list Series)
    (st : StructState) :
  incl (map name cols) names ->
  redundant_within names st ->
  redundant_within names (correlation_step cols st).
Proof.
  intros Hcols Hst. unfold correlation_step.
  destruct (Nat.leb 2 _); [|exact Hst].
  assert (Hin : forall ic, In ic (enumerate cols) -> In (name (snd ic)) names).
  { intros [i c] Hic. apply in_combine_r in Hic. apply Hcols.
    apply in_map. exact Hic. }
  apply redundant_within_fold; [|exact Hst].
  intros st1 ic1 H1 Hst1.
  apply redundant_within_fold; [|exact Hst1].
  intros st2 jc2 H2 Hst2.
  destruct (andb _ _); [|exact Hst2].
  cbn [add_flag redundant].
  apply (redundant_within_add names); [apply Hin; exact H2|].
  apply (redundant_within_add names); [apply Hin; exact H1 | exact Hst2].
Qed.

Lemma type_inconsistency_step_redundant `{TabularEngine}
    (st : StructState) (c : Series) :
  redundant (type_inconsistency_step st c) = redundant st
  /\ candidate_pks (type_inconsistency_step st c) = candidate_pks st.
Proof.
  unfold type_inconsistency_step. cbv zeta.
  destruct (Nat.eqb _ 0); [split; reflexivity|].
  destruct (andb _ _); split; reflexivity.
Qed.

(** X6. The redundant-feature list names columns of the table and names no
    column twice. *)
Theorem redundant_list_distinct_columns `{TabularEngine}
    (p : DatasetProfile) :
  let r := evaluate_structural p in
  NoDup (redundant_feature_list r)
  /\ incl (redundant_feature_list r) (map name (columns (df p))).
Proof.
  cbv zeta. unfold evaluate_structural. cbv zeta.
  cbn [redundant_feature_list].
  split; [apply dedup_spec|].
  intros x Hx. apply dedup_spec in Hx. destruct Hx as [Hx _]. revert x Hx.
  match goal with
  | |- forall x, In x (redundant ?S) -> In x ?N =>
      change (redundant_within N S)
  end.
  apply correlation_step_within.
  - intros x Hx. apply in_map_iff in Hx. destruct Hx as (c & <- & Hc).
    apply filter_In in Hc. apply in_map. apply Hc.
  - apply redundant_within_fold.
    + intros st c Hc. apply near_constant_step_within. apply in_map. exact Hc.
    + apply redundant_within_fold.
      * intros st c Hc. apply identifier_step_within. apply in_map. exact Hc.
      * repeat match goal with
               | |- context [if ?b then _ else _] => destruct b
               end; intros x [].
Qed.

Lemma near_constant_step_pks `{TabularEngine} (n : nat) (st : StructState)
    (c : Series) :
  candidate_pks (near_constant_step n st c) = candidate_pks st.
Proof.
  unfold near_constant_step. destruct (mem _ _); [reflexivity|].
  destruct (top_count _) as [[top k]|]; [|reflexivity].
  destruct (andb _ _); reflexivity.
Qed.

Lemma fold_keeps {A B : Type} (proj : StructState -> B)
    (f : StructState -> A -> StructState) (l : list A) :
  (forall st x, proj (f st x) = proj st) ->
  forall st, proj (fold_left f l st) = proj st.
Proof.
  intro Hf. induction l as [|x l IH]; intro st; [reflexivity|].
  cbn [fold_left]. rewrite IH. apply Hf.
Qed.

Lemma correlation_step_pks (cols : list Series) (st : StructState) :
  candidate_pks (correlation_step cols st) = candidate_pks st.
Proof.
  unfold correlation_step. destruct (Nat.leb 2 _); [|reflexivity].
  apply (fold_keeps candidate_pks). intros st1 x.
  apply (fold_keeps candidate_pks). intros st2 y.
  destruct (andb _ _); reflexivity.
Qed.

Lemma identifier_fold_pks (n : nat) (cols : list Series) :
  forall st,
    candidate_pks (fold_left (identifier_step n) cols st)
    = candidate_pks st ++ map name (filter (is_key_columnb n) cols).
Proof.
  induction cols as [|c cols IH]; intro st.
  - cbn. rewrite app_nil_r. reflexivity.
  - cbn [fold_left filter]. rewrite IH.
    unfold identifier_step, is_key_columnb. cbv zeta.
    destruct (orb (is_text (dtype c)) (is_integer (dtype c))); cbn [andb];
      [|reflexivity].
    destruct (andb (andb (Nat.eqb (nunique c) n) (Nat.ltb 0 n))
                   (forallb notna (values c)));
      destruct (andb (Nat.eqb (nunique c) 1) (Nat.ltb 1 n));
      cbn [candidate_pks add_flag add_redundant add_candidate_pk map];
      rewrite <- ?app_assoc; reflexivity.
Qed.

(** X7. The candidate primary keys are exactly the columns of object,
    string or integer dtype that have no missing entry and as many distinct
    values as the table has rows (at least one), in column order. *)
Theorem candidate_primary_keys_exact `{TabularEngine} (p : DatasetProfile) :
  candidate_primary_keys (evaluate_structural p)
  = map name (filter (is_key_columnb (n_rows (df p))) (columns (df p))).
Proof.
  unfold evaluate_structural. cbv zeta. cbn [candidate_primary_keys].
  rewrite (fold_keeps candidate_pks type_inconsistency_step);
    [|intros st c; apply type_inconsistency_step_redundant].
  rewrite correlation_step_pks.
  rewrite (fold_keeps candidate_pks (near_constant_step (n_rows (df p))));
    [|intros st c; apply near_constant_step_pks].
  rewrite identifier_fold_pks.
  repeat match goal with
         | |- context [if ?b then _ else _] => destruct b
         end; reflexivity.
Qed.

Lemma app_one_not_nil {A : Type} (l : list A) (x : A) : l ++ [x] <> [].
Proof. destruct l; discriminate. Qed.

Lemma quiet_fold {A : Type} (f : StructState -> A -> StructState)
    (l : list A) :
  quiet_step f ->
  forall st, flags (fold_left f l st) = [] ->
             flags st = [] /\ redundant (fold_left f l st) = redundant st.
Proof.
  intro Hf. induction l as [|x l IH]; intros st Hq; [split; [exact Hq | reflexivity]|].
  cbn [fold_left] in *. destruct (IH _ Hq) as [H1 H2].
  destruct (Hf st x H1) as [H3 H4]. split; [exact H3 | congruence].
Qed.

Ltac quiet_cases :=
  repeat match goal with
         | |- context [if ?b then _ else _] => destruct b
         | |- context [match ?x with Some _ => _ | None => _ end] => destruct x
         | |- context [let '(_, _) := ?x in _] => destruct x
         end;
  cbn [flags redundant add_flag add_redundant add_candidate_pk];
  let Hq := fresh "Hq" in
  intro Hq;
  first [ exfalso; exact (app_one_not_nil _ _ Hq)
        | split; [exact Hq | reflexivity] ].

Lemma identifier_step_quiet (n : nat) : quiet_step (identifier_step n).
Proof. intros st c. unfold identifier_step. cbv zeta. quiet_cases. Qed.

Lemma near_constant_step_quiet `{TabularEngine} (n : nat) :
  quiet_step (near_constant_step n).
Proof. intros st c. unfold near_constant_step. quiet_cases. Qed.

Lemma type_inconsistency_step_quiet `{TabularEngine} :
  quiet_step type_inconsistency_step.
Proof. intros st c. unfold type_inconsistency_step. cbv zeta. quiet_cases. Qed.

Lemma correlation_step_quiet (cols : list Series) (st : StructState) :
  flags (correlation_step cols st) = [] ->
  flags st = [] /\ redundant (correlation_step cols st) = redundant st.
Proof.
  unfold correlation_step. destruct (Nat.leb 2 _);
    [|intro Hq; split; [exact Hq | reflexivity]].
  apply quiet_fold. intros st1 x. apply quiet_fold. intros st2 y. quiet_cases.
Qed.

(** X8. When the structural layer raises no flag, no column is redundant and
    the score is 1.0, except that a missing-value density above 0.05 (and,
    there being no flag, of at most 0.1) still costs 0.1. *)
Theorem unflagged_structural_score `{TabularEngine} (p : DatasetProfile) :
  structural_risk_flags (evaluate_structural p) = [] ->
  redundant_feature_list (evaluate_structural p) = []
  /\ missing_ratio_of (df p) <= 0.1
  /\ structural_integrity_score (evaluate_structural p)
     == (if Py.gtb (missing_ratio_of (df p)) 0.05 then 0.9 else 1).
Proof.
  unfold evaluate_structural. cbv zeta.
  cbn [structural_risk_flags redundant_feature_list structural_integrity_score].
  intro Hq.
  apply (quiet_fold _ _ type_inconsistency_step_quiet) in Hq.
  destruct Hq as [Hq _].
  apply correlation_step_quiet in Hq. destruct Hq as [Hq Hr3]. rewrite Hr3.
  apply (quiet_fold _ _ (near_constant_step_quiet _)) in Hq.
  destruct Hq as [Hq Hr2]. rewrite Hr2.
  apply (quiet_fold _ _ (identifier_step_quiet _)) in Hq.
  destruct Hq as [Hq Hr1]. rewrite Hr1.
  destruct (Nat.ltb 0 (df_duplicated_sum (df p))) eqn:Edup;
    [exfalso; cbn [flags add_flag] in Hq; exact (app_one_not_nil _ _ Hq)|].
  case_gtb (missing_ratio_of (df p)) 0.3;
    [exfalso; cbn [flags add_flag] in Hq; exact (app_one_not_nil _ _ Hq)|].
  case_gtb (missing_ratio_of (df p)) 0.1;
    [exfalso; cbn [flags add_flag] in Hq; exact (app_one_not_nil _ _ Hq)|].
  destruct (Nat.ltb 0 (List.length (empty_columns (df p)))) eqn:Eempty;
    [exfalso; cbn [flags add_flag] in Hq; exact (app_one_not_nil _ _ Hq)|].
  cbn [redundant dedup List.length].
  split; [reflexivity|]. split; [assumption|].
  apply Nat.ltb_ge in Edup.
  assert (Hd0 : df_duplicated_sum (df p) = 0%nat) by lia. rewrite Hd0.
  assert (G1 : Py.gtb (missing_ratio_of (df p)) 0.5 = false)
    by (apply gtb_le; lra).
  assert (G2 : Py.gtb (missing_ratio_of (df p)) 0.2 = false)
    by (apply gtb_le; lra).
  assert (G3 : Py.gtb (Qnat 0 / Qnat (Nat.max (n_rows (df p)) 1)) 0.1 = false).
  { apply gtb_le. change (Qnat 0) with 0.
    setoid_replace (0 / Qnat (Nat.max (n_rows (df p)) 1)) with 0; [lra|].
    unfold Qdiv. ring. }
  assert (G4 : Py.gtb (Qnat 0) (Qnat (List.length (columns (df p))) * 0.3)
               = false).
  { apply gtb_le. pose proof (Qnat_nonneg (List.length (columns (df p)))).
    change (Qnat 0) with 0. lra. }
  rewrite G1, G2, G3, G4.
  destruct (Py.gtb (missing_ratio_of (df p)) 0.05); vm_compute; reflexivity.
Qed.

(** ** More on the operational layer *)










(** X11. Only the first candidate column counts: when the first column of
    the table is a datetime column without any value, the result is the one
    for a table without temporal column, whatever the other columns hold. *)
Theorem empty_first_datetime_column_shadows `{TabularEngine} (now : Z)
    (p : DatasetProfile) (c : Series) (rest : list Series) :
  columns (df p) = c :: rest ->
  dtype c = dt_datetime64 ->
  forallb isna (values c) = true ->
  evaluate_operational now p = no_temporal_result.
Proof.
  intros Hcols Hdt Hna.
  assert (Hts : timestamps (values c) = []).
  { induction (values c) as [|x l IH]; [reflexivity|].
    cbn [forallb] in Hna. apply andb_true_iff in Hna. destruct Hna as [Hx Hl].
    destruct x as [v|]; [discriminate|]. cbn [timestamps]. apply IH. exact Hl. }
  unfold evaluate_operational. cbv zeta. rewrite Hcols.
  cbn [_find_temporal_column]. rewrite Hdt, Hts. reflexivity.
Qed.

(** ** The ingestion metadata *)

Lemma has_timestamp_find `{TabularEngine} (cols : list Series) :
  existsb (fun c =>
             match dtype c with
             | dt_datetime64 => true
             | _ => existsb iso_date_prefix (map py_str (dropna (values c)))
             end) cols
  = match _find_temporal_column cols with
    | Some _ => true
    | None => false
    end.
Proof.
  induction cols as [|c cols IH]; [reflexivity|].
  cbn [existsb _find_temporal_column].
  destruct (dtype c);
    try (destruct (existsb iso_date_prefix (map py_str (dropna (values c))));
         [reflexivity | exact IH]).
  reflexivity.
Qed.

(** X12. The timestamp flag of the metadata and the operational layer look
    for the same thing: the flag is set exactly when the operational layer
    finds a temporal column, so a profile built without the flag gets the
    no-temporal-column result at any time. *)
Theorem has_timestamp_agrees_with_operational `{TabularEngine}
    (d : DataFrame) (ft : string) (now : Z) :
  has_timestamp (build_input_metadata d ft)
  = match _find_temporal_column (columns d) with
    | Some _ => true
    | None => false
    end
  /\ (has_timestamp (metadata (create_profile d ft)) = false ->
      evaluate_operational now (create_profile d ft) = no_temporal_result).
Proof.
  assert (Hm : has_timestamp (build_input_metadata d ft)
               = match _find_temporal_column (columns d) with
                 | Some _ => true
                 | None => false
                 end).
  { unfold build_input_metadata. cbv zeta. cbn [has_timestamp].
    apply has_timestamp_find. }
  split; [exact Hm|].
  unfold create_profile. cbv zeta. cbn [metadata]. rewrite Hm. intro Hnone.
  unfold evaluate_operational. cbv zeta.
  change (df {| raw := d; metadata := build_input_metadata d ft;
                working_df := None |}) with d.
  destruct (_find_temporal_column (columns d)); [discriminate | reflexivity].
Qed.

Lemma filter_length_le {A : Type} (f : A -> bool) (l : list A) :
  (List.length (filter f l) <= List.length l)%nat.
Proof.
  induction l as [|x l IH]; [apply le_n|].
  cbn [filter]. destruct (f x); cbn [List.length]; lia.
Qed.

Lemma Qnat_le (a b : nat) : (a <= b)%nat -> Qnat a <= Qnat b.
Proof. intro Hab. unfold Qnat. rewrite <- Zle_Qle. lia. Qed.

Lemma Qnat_pos (n : nat) : (0 < n)%nat -> 0 < Qnat n.
Proof.
  intro Hn. unfold Qnat. change 0 with (inject_Z 0). rewrite <- Zlt_Qlt. lia.
Qed.

Lemma Qnat_ratio_unit (a b : nat) : (a <= b)%nat -> in_unit (Qnat a / Qnat b).
Proof.
  intro Hab. split; [apply Qdiv_nonneg; apply Qnat_nonneg|].
  destruct b as [|b].
  - unfold Qdiv. change (/ Qnat 0) with 0. rewrite Qmult_0_r. lra.
  - apply Qle_shift_div_r; [apply Qnat_pos; lia|].
    rewrite Qmult_1_l. apply Qnat_le. exact Hab.
Qed.

Lemma forallb_filter_length {A : Type} (f : A -> bool) (l : list A) :
  forallb f l = true <-> List.length (filter f l) = List.length l.
Proof.
  induction l as [|x l IH]; [cbn; tauto|].
  cbn [forallb filter]. pose proof (filter_length_le f l).
  destruct (f x); cbn [andb List.length].
  - rewrite IH. split; intro; lia.
  - split; [discriminate | intro; lia].
Qed.

Lemma Qnat_ratio_one (a b : nat) :
  (0 < b)%nat -> (Qnat a / Qnat b == 1 <-> a = b).
Proof.
  intro Hb. pose proof (Qnat_pos b Hb) as Hpos. split.
  - intro Hq.
    assert (He : Qnat a == Qnat b).
    { assert (Hnz : ~ Qnat b == 0) by (intro Hz; rewrite Hz in Hpos; lra).
      setoid_replace (Qnat a) with (Qnat a / Qnat b * Qnat b)
        by (field; exact Hnz).
      rewrite Hq. ring. }
    unfold Qnat in He. rewrite inject_Z_injective in He. lia.
  - intros ->. unfold Qdiv. apply Qmult_inv_r.
    intro Hz. rewrite Hz in Hpos. exact (Qlt_irrefl 0 Hpos).
Qed.

(** X13. The numeric density of the metadata is a proportion: it lies in
    [0,1], it is 0 for a table without columns, and it is 1 exactly when
    the table has columns and they are all numeric. *)
Theorem numeric_density_is_proportion `{TabularEngine} (d : DataFrame)
    (ft : string) :
  let m := build_input_metadata d ft in
  in_unit (numeric_density m)
  /\ (columns d = [] -> numeric_density m == 0)
  /\ (numeric_density m == 1 <->
      columns d <> []
      /\ forallb (fun c => is_number (dtype c)) (columns d) = true).
Proof.
  cbv zeta. unfold build_input_metadata. cbv zeta. cbn [numeric_density].
  unfold select_number.
  split; [|split].
  - destruct (Nat.eqb (List.length (columns d)) 0).
    + split; vm_compute; discriminate.
    + apply Qnat_ratio_unit, filter_length_le.
  - intros ->. reflexivity.
  - rewrite forallb_filter_length.
    destruct (columns d) as [|c cols] eqn:Ecols.
    + cbn. split; [intro Hq; vm_compute in Hq; discriminate|].
      intros [Hne _]. congruence.
    + cbn [Nat.eqb List.length].
      rewrite Qnat_ratio_one by lia.
      split; [intro Hl; split; [discriminate | exact Hl] | intros [_ Hl]; exact Hl].
Qed.

(** ** More on the logical layer *)

Lemma run_check_ok (b : bool) (v : Violation) (t : Tally) :
  tally_ok t -> tally_ok (run_check b v t).
Proof.
  unfold tally_ok. destruct b; cbn [run_check passed violations total_checks];
    rewrite ?length_app; cbn [List.length]; lia.
Qed.

Lemma fold_tally_ok {A : Type} (f : Tally -> A -> Tally) (l : list A) :
  (forall t x, tally_ok t -> tally_ok (f t x)) ->
  forall t, tally_ok t -> tally_ok (fold_left f l t).
Proof.
  intro Hf. induction l as [|x l IH]; intros t Ht; [exact Ht|].
  cbn [fold_left]. apply IH, Hf, Ht.
Qed.

Lemma logical_tally_ok (d : DataFrame) : tally_ok (logical_tally d).
Proof.
  unfold logical_tally. cbv zeta.
  apply fold_tally_ok.
  { intros t c Ht. destruct (orb _ _); [apply run_check_ok|]; exact Ht. }
  apply fold_tally_ok; [intros t c Ht; apply run_check_ok; exact Ht|].
  apply fold_tally_ok.
  { intros t c Ht. apply fold_tally_ok; [|exact Ht].
    intros t' c' Ht'. destruct (String.eqb _ _); [|apply run_check_ok]; exact Ht'. }
  apply fold_tally_ok; [intros t c Ht; apply run_check_ok; exact Ht|].
  reflexivity.
Qed.

(** X14. Every business-rule check is accounted for: the checks that passed
    and the violations found add up to the number of checks, and the
    violation rate returned lies in [0,1]. *)
Theorem logical_checks_accounted (p : DatasetProfile) :
  let t := logical_tally (df p) in
  (passed t + List.length (violations t))%nat = total_checks t
  /\ in_unit (violation_rate (evaluate_logical p)).
Proof.
  cbv zeta. pose proof (logical_tally_ok (df p)) as Hok.
  split; [exact Hok|].
  unfold evaluate_logical. cbv zeta.
  destruct (Nat.eqb (total_checks (logical_tally (df p))) 0);
    cbn [violation_rate]; [split; vm_compute; discriminate|].
  apply round_unit.
  assert (Hle : (passed (logical_tally (df p))
                 <= total_checks (logical_tally (df p)))%nat)
    by (unfold tally_ok in Hok; lia).
  pose proof (Qnat_ratio_unit _ _ Hle) as [H0 H1]. lra.
Qed.

(** X15. With at least one check and no violation the logical integrity is
    1 and the violation rate 0; when two thirds or more of the checks are
    violated the logical integrity is 0. *)
Theorem logical_integrity_extremes (p : DatasetProfile) :
  let t := logical_tally (df p) in
  total_checks t <> 0%nat ->
  (violations t = [] ->
   logical_integrity_score (evaluate_logical p) == 1
   /\ violation_rate (evaluate_logical p) == 0)
  /\ ((2 * total_checks t <= 3 * List.length (violations t))%nat ->
      logical_integrity_score (evaluate_logical p) == 0).
Proof.
  cbv zeta. intro Hne. pose proof (logical_tally_ok (df p)) as Hok.
  unfold tally_ok in Hok.
  unfold evaluate_logical. cbv zeta.
  apply Nat.eqb_neq in Hne. rewrite Hne. apply Nat.eqb_neq in Hne.
  cbn [logical_integrity_score violation_rate].
  set (t := logical_tally (df p)) in *.
  assert (Hpos : 0 < Qnat (total_checks t)) by (apply Qnat_pos; lia).
  split.
  - intro Hv. rewrite Hv in Hok. cbn [List.length] in Hok.
    assert (Hr : 1 - Qnat (passed t) / Qnat (total_checks t) == 0).
    { replace (passed t) with (total_checks t) by lia.
      setoid_replace (Qnat (total_checks t) / Qnat (total_checks t)) with 1;
        [ring|].
      apply Qnat_ratio_one; [lia | reflexivity]. }
    split.
    + transitivity (Py.round (Py.min 1 (Py.max 0 (1 - 0 * 1.5))) 4);
        [|vm_compute; reflexivity].
      apply round_proper; [|reflexivity].
      apply min_proper; [reflexivity|]. apply max_proper; [reflexivity|].
      rewrite Hr. reflexivity.
    + transitivity (Py.round 0 4); [|vm_compute; reflexivity].
      apply round_proper; [exact Hr | reflexivity].
  - intro Hv.
    assert (Hr : 1 - (1 - Qnat (passed t) / Qnat (total_checks t)) * 1.5 <= 0).
    { assert (Hp : 3 * Qnat (passed t) <= Qnat (total_checks t)).
      { unfold Qnat.
        change 3 with (inject_Z 3). rewrite <- inject_Z_mult, <- Zle_Qle. lia. }
      assert (Hd : Qnat (passed t) / Qnat (total_checks t) <= 1 # 3).
      { apply Qle_shift_div_r; [exact Hpos|]. lra. }
      lra. }
    match goal with |- Py.round (Py.min 1 (Py.max 0 ?x)) 4 == 0 =>
      destruct (max_cases 0 x) as [[Hc _] | [_ ->]]; [lra|]
    end.
    vm_compute. reflexivity.
Qed.

(** X16. A table none of whose column names contains a rule pattern
    (revenue, sales, amount, qty, quantity, count, id, transaction, txn, key;
    in any letter case) gets the default result: integrity 0.85, violation
    rate 0 and no violation. *)
Theorem no_rule_column_default (p : DatasetProfile) :
  (forall c, In c (columns (df p)) ->
             _col_like (name c) rule_patterns = false) ->
  logical_default (evaluate_logical p).
Proof.
  intro Hno.
  assert (Ht : logical_tally (df p)
               = {| violations := []; total_checks := 0; passed := 0 |}).
  { unfold logical_tally. cbv zeta.
    assert (Hsub : forall ps, (forall q, In q ps -> In q rule_patterns) ->
                   forall g, filter (fun c => andb (_col_like (name c) ps) (g c))
                                    (columns (df p)) = []).
    { intros ps Hps g. apply filter_none. intros c Hc.
      rewrite (col_like_sub _ ps rule_patterns Hps (Hno c Hc)). reflexivity. }
    rewrite (Hsub ["revenue"; "sales"; "amount"]); [|cbn; intuition].
    rewrite (Hsub ["qty"; "quantity"; "count"]); [|cbn; intuition].
    rewrite (Hsub ["id"; "transaction"; "txn"; "key"]); [|cbn; intuition].
    reflexivity. }
  unfold logical_default, evaluate_logical. cbv zeta. rewrite Ht.
  cbn [total_checks Nat.eqb logical_integrity_score violation_rate
       violations_summary violations firstn].
  repeat split; vm_compute; reflexivity.
Qed.

(** ** More on the analytical layer *)

Lemma setitem_keys {V : Type} (d : list (string * V)) (k : string) (v : V) :
  incl (keys (setitem d k v)) (k :: keys d).
Proof.
  induction d as [|[k' v'] d IH]; cbn [setitem keys map fst].
  - apply incl_refl.
  - destruct (String.eqb k k') eqn:E; cbn [map fst].
    + intros x [<- | Hx]; right; [left; reflexivity | right; exact Hx].
    + intros x [<- | Hx]; [right; left; reflexivity|].
      destruct (IH x Hx) as [<- | Hk]; [left; reflexivity | right; right; exact Hk].
Qed.

Lemma vif_loop_keys `{TabularEngine} (num todo : list Series) :
  forall vifs out (names : list string),
    incl (map name todo) names ->
    incl (keys vifs) names ->
    vif_loop num todo vifs = Some out ->
    incl (keys out) names.
Proof.
  induction todo as [|y todo IH]; intros vifs out names Htodo Hv Hout.
  - cbn in Hout. inversion Hout; subst. exact Hv.
  - cbn [vif_loop] in Hout. cbv zeta in Hout.
    assert (Htodo' : incl (map name todo) names).
    { intros x Hx. apply Htodo. right. exact Hx. }
    destruct (Nat.eqb _ 0); [exact (IH _ _ _ Htodo' Hv Hout)|].
    destruct (linreg_r2 _ y) as [r2| |]; [| |discriminate].
    + refine (IH _ _ _ Htodo' _ Hout).
      intros x Hx. apply setitem_keys in Hx.
      destruct Hx as [<- | Hx]; [apply Htodo; left; reflexivity | apply Hv; exact Hx].
    + exact (IH _ _ _ Htodo' Hv Hout).
Qed.

Lemma vif_keys `{TabularEngine} (d : DataFrame) (out : list (string * Vif)) :
  _vif d = Some out -> incl (keys out) (map name (select_number d)).
Proof.
  unfold _vif. cbv zeta. destruct (Nat.ltb _ 2).
  - intro Hout. inversion Hout; subst. intros x [].
  - apply vif_loop_keys; [|intros x []].
    intros x Hx. apply in_map_iff in Hx. destruct Hx as (c & <- & Hc).
    apply filter_In in Hc. apply in_map. apply Hc.
Qed.

(** X17. The three column lists of the analytical result name numeric
    columns of the table, and a column reported for low variance is never
    reported for high skew. *)
Theorem analytical_lists_sound `{TabularEngine} (p : DatasetProfile) :
  let r := evaluate_analytical p in
  let numeric := map name (select_number (df p)) in
  incl (low_variance_columns r) numeric
  /\ incl (high_skew_columns r) numeric
  /\ incl (high_vif_columns r) numeric
  /\ (forall x, In x (low_variance_columns r) -> ~ In x (high_skew_columns r)).
Proof.
  cbv zeta. unfold evaluate_analytical. cbv zeta.
  destruct (orb _ _).
  { cbn. repeat split; try (intros x []). }
  set (low_var := map name (filter low_variance (select_number (df p)))).
  set (skewed := map name (filter _ (select_number (df p)))).
  assert (Hlv : incl low_var (map name (select_number (df p)))).
  { intros x Hx. apply in_map_iff in Hx. destruct Hx as (c & <- & Hc).
    apply filter_In in Hc. apply in_map. apply Hc. }
  assert (Hsk : incl skewed (map name (select_number (df p)))).
  { intros x Hx. apply in_map_iff in Hx. destruct Hx as (c & <- & Hc).
    apply filter_In in Hc. apply in_map. apply Hc. }
  assert (Hdis : forall x, In x low_var -> ~ In x skewed).
  { intros x Hx Hs. apply in_map_iff in Hs. destruct Hs as (c & <- & Hc).
    apply filter_In in Hc. destruct Hc as [_ Hc].
    apply andb_true_iff in Hc. destruct Hc as [Hc _].
    apply negb_true_iff in Hc. apply mem_In in Hx. congruence. }
  destruct (match low_var with [] => _ | _ :: _ => _ end) as [u1 p1].
  destruct (match skewed with [] => _ | _ :: _ => _ end) as [u2 p2].
  pose proof (vif_keys (df p)) as Hvk.
  destruct (_vif (df p)) as [vifs|].
  - specialize (Hvk vifs eq_refl).
    assert (Hhv : incl (map fst (filter (fun kv => vif_gt_10 (snd kv)) vifs))
                       (map name (select_number (df p)))).
    { intros x Hx. apply in_map_iff in Hx. destruct Hx as (kv & <- & Hkv).
      apply filter_In in Hkv. apply Hvk. unfold keys. apply in_map. apply Hkv. }
    destruct (map fst (filter (fun kv => vif_gt_10 (snd kv)) vifs));
      cbn [low_variance_columns high_skew_columns high_vif_columns];
      repeat split; assumption.
  - cbn [low_variance_columns high_skew_columns high_vif_columns].
    repeat split; try assumption. intros x [].
Qed.


(** ** Sampling and cross-layer agreement *)



Lemma firstn_incl_self {A : Type} (n : nat) (l : list A) :
  incl (firstn n l) l.
Proof.
  revert l. induction n as [|n IH]; intros l x Hx; [contradiction|].
  destruct l as [|y l]; [contradiction|].
  cbn [firstn] in Hx. destruct Hx as [<- | Hx];
    [left; reflexivity | right; apply IH; exact Hx].
Qed.

Lemma sensitive_flag_not_unique (sm : list (string * list string)) :
  ~ In NoUniqueIdentifierFlag
       (map (fun kv => SensitiveColumnFlag (fst kv) (snd kv)) sm).
Proof.
  intro Hin. apply in_map_iff in Hin. destruct Hin as (kv & Hkv & _).
  discriminate.
Qed.

(** X20. The two layers agree on identifiers: when the structural layer
    finds a candidate primary key, the governance layer does not raise the
    missing-identifier flag. *)
Theorem candidate_key_silences_governance `{TabularEngine}
    (p : DatasetProfile) :
  candidate_primary_keys (evaluate_structural p) <> [] ->
  ~ In NoUniqueIdentifierFlag (risk_flags (evaluate_governance p)).
Proof.
  intro Hpk.
  assert (Hex : exists c, In c (columns (df p))
                          /\ nunique c = n_rows (df p)
                          /\ (0 < n_rows (df p))%nat).
  { revert Hpk. unfold evaluate_structural. cbv zeta.
    cbn [candidate_primary_keys].
    rewrite (fold_keeps candidate_pks type_inconsistency_step);
      [|intros st c; apply type_inconsistency_step_redundant].
    rewrite correlation_step_pks.
    rewrite (fold_keeps candidate_pks (near_constant_step (n_rows (df p))));
      [|intros st c; apply near_constant_step_pks].
    rewrite identifier_fold_pks.
    assert (E0 : forall st0 : StructState,
               candidate_pks st0 = [] ->
               candidate_pks st0
               ++ map name (filter (is_key_columnb (n_rows (df p)))
                                   (columns (df p))) <> [] ->
               exists c, In c (columns (df p))
                         /\ nunique c = n_rows (df p)
                         /\ (0 < n_rows (df p))%nat).
    { intros st0 -> Hne. cbn [app] in Hne.
      destruct (filter (is_key_columnb (n_rows (df p))) (columns (df p)))
        as [|c l] eqn:Ef; [exfalso; apply Hne; reflexivity|].
      assert (Hc : In c (filter (is_key_columnb (n_rows (df p)))
                                (columns (df p))))
        by (rewrite Ef; left; reflexivity).
      apply filter_In in Hc. destruct Hc as [Hc Hk].
      unfold is_key_columnb in Hk.
      repeat (apply andb_true_iff in Hk; destruct Hk as [? Hk]).
      exists c. repeat split; [exact Hc | apply Nat.eqb_eq | apply Nat.ltb_lt];
        match goal with
        | Hx : andb _ _ = true |- _ =>
            apply andb_true_iff in Hx; destruct Hx; assumption
        end. }
    apply E0.
    repeat match goal with
           | |- context [if ?b then _ else _] => destruct b
           end; reflexivity. }
  destruct Hex as (c & Hc & Hu & Hn).
  unfold evaluate_governance. cbv zeta.
  destruct (fold_left governance_step (columns (df p)) ([], 0.0)) as [sm mr].
  cbn [risk_flags].
  assert (Hrows : Nat.ltb 0 (n_rows (df p)) = true) by (apply Nat.ltb_lt; exact Hn).
  assert (Huniq : existsb (fun c0 => Nat.eqb (nunique c0) (n_rows (df p)))
                          (columns (df p)) = true).
  { apply existsb_exists. exists c. split; [exact Hc | apply Nat.eqb_eq, Hu]. }
  rewrite Hrows, Huniq. cbn [negb andb app].
  intro Hin. apply firstn_incl_self in Hin.
  exact (sensitive_flag_not_unique sm Hin).
Qed.

(** ** Row order and the latest timestamp *)







(** ** Correlated pairs *)






(** The six sums of a pair of columns with the two columns exchanged. *)
Lemma pair_sums_swap (l1 : list Cell) :
  forall l2 : list Cell,
    let '(n, sx, sy, sxx, syy, sxy) := pair_sums (combine l1 l2) in
    let '(n', sx', sy', sxx', syy', sxy') := pair_sums (combine l2 l1) in
    n == n' /\ sx == sy' /\ sy == sx' /\ sxx == syy' /\ syy == sxx'
    /\ sxy == sxy'.
Proof.
  induction l1 as [|a l1 IH]; intros [|b l2]; cbn [combine pair_sums];
    try (repeat split; reflexivity).
  specialize (IH l2).
  destruct (pair_sums (combine l1 l2)) as [[[[[n sx] sy] sxx] syy] sxy].
  destruct (pair_sums (combine l2 l1)) as [[[[[n' sx'] sy'] sxx'] syy'] sxy'].
  destruct IH as (H1 & H2 & H3 & H4 & H5 & H6).
  destruct (num a) as [x|]; destruct (num b) as [y|];
    repeat split; try assumption.
  - rewrite H1. reflexivity.
  - rewrite H2. reflexivity.
  - rewrite H3. reflexivity.
  - rewrite H4. reflexivity.
  - rewrite H5. reflexivity.
  - rewrite H6. ring.
Qed.

(** The correlation test does not depend on which of the two columns comes
    first, so that testing the pairs [i < j] tests every pair. *)
Lemma abs_corr_gt_symmetric (t : Q) (a b : Series) :
  abs_corr_gt t a b = abs_corr_gt t b a.
Proof.
  unfold abs_corr_gt.
  pose proof (pair_sums_swap (values a) (values b)) as Hs.
  destruct (pair_sums (combine (values a) (values b)))
    as [[[[[n sx] sy] sxx] syy] sxy].
  destruct (pair_sums (combine (values b) (values a)))
    as [[[[[n' sx'] sy'] sxx'] syy'] sxy'].
  destruct Hs as (H1 & H2 & H3 & H4 & H5 & H6).
  assert (Hv : (n * sxx - sx * sx) * (n * syy - sy * sy)
               == (n' * sxx' - sx' * sx') * (n' * syy' - sy' * sy')).
  { rewrite H1, H2, H3, H4, H5. ring. }
  assert (Hc : (n * sxy - sx * sy) * (n * sxy - sx * sy)
               == (n' * sxy' - sx' * sy') * (n' * sxy' - sx' * sy')).
  { rewrite H1, H2, H3, H6. ring. }
  unfold Py.gtb.
  rewrite (ltb_proper _ _ (Qeq_refl 0) _ _ Hv).
  assert (Ht : t * t * ((n * sxx - sx * sx) * (n * syy - sy * sy))
               == t * t * ((n' * sxx' - sx' * sx') * (n' * syy' - sy' * sy'))).
  { rewrite Hv. reflexivity. }
  rewrite (ltb_proper _ _ Ht _ _ Hc). reflexivity.
Qed.

(** ** Violations are reported *)

Lemma run_check_extends (b : bool) (v : Violation) (t : Tally) :
  tally_extends t (run_check b v t).
Proof.
  unfold tally_extends. destruct b; cbn [run_check violations];
    [apply incl_appl|]; apply incl_refl.
Qed.

Lemma tally_extends_fold {A : Type} (f : Tally -> A -> Tally) (l : list A) :
  (forall t x, tally_extends t (f t x)) ->
  forall t, tally_extends t (fold_left f l t).
Proof.
  intro Hf. induction l as [|x l IH]; intro t; cbn [fold_left].
  - apply incl_refl.
  - eapply incl_tran; [apply Hf | apply IH].
Qed.

Lemma tally_fold_reports {A : Type} (f : Tally -> A -> Tally) (l : list A)
    (x : A) (v : Violation) :
  (forall t y, tally_extends t (f t y)) ->
  (forall t, In v (violations (f t x))) ->
  In x l ->
  forall t, In v (violations (fold_left f l t)).
Proof.
  intros Hext Hx. induction l as [|y l IH]; [contradiction|].
  intros [<- | Hin] t; cbn [fold_left].
  - apply (tally_extends_fold f l Hext (f t y)). apply Hx.
  - apply IH. exact Hin.
Qed.

(** X24. A negative value in a numeric column named after revenue, sales or
    amount is a violation: it is in the list of violations, and in the
    summary returned when there are at most 30 violations. *)
Theorem negative_revenue_reported (p : DatasetProfile) (c : Series) :
  In c (columns (df p)) ->
  _col_like (name c) ["revenue"; "sales"; "amount"] = true ->
  is_number (dtype c) = true ->
  any_negative c = true ->
  In (NegativeRevenue (name c)) (violations (logical_tally (df p)))
  /\ ((List.length (violations (logical_tally (df p))) <= 30)%nat ->
      In (NegativeRevenue (name c)) (violations_summary (evaluate_logical p))).
Proof.
  intros Hc Hlike Hnum Hneg.
  assert (Hin : In (NegativeRevenue (name c))
                   (violations (logical_tally (df p)))).
  { unfold logical_tally. cbv zeta.
    apply tally_extends_fold.
    { intros t x. destruct (orb _ _); [apply run_check_extends | apply incl_refl]. }
    apply tally_extends_fold; [intros t x; apply run_check_extends|].
    apply tally_extends_fold.
    { intros t x. apply tally_extends_fold. intros t' y.
      destruct (String.eqb _ _); [apply incl_refl | apply run_check_extends]. }
    apply (tally_fold_reports _ _ c).
    - intros t x. apply run_check_extends.
    - intro t. rewrite Hneg. cbn [run_check violations].
      apply in_or_app. right. left. reflexivity.
    - apply filter_In. split; [exact Hc|].
      rewrite Hlike. cbn [andb]. apply mem_In. apply in_map.
      unfold select_number. apply filter_In. split; assumption. }
  split; [exact Hin|]. intro Hlen.
  unfold evaluate_logical. cbv zeta.
  destruct (Nat.eqb (total_checks (logical_tally (df p))) 0);
    cbn [violations_summary]; rewrite firstn_all2 by exact Hlen; exact Hin.
Qed.

(** X25. A repeated value in an identifier-like column (a name with id,
    transaction, txn or key; object, string or integer dtype; at least one
    value) is a violation: it is in the list of violations, and in the
    summary returned when there are at most 30 violations. *)
Theorem duplicate_ids_reported (p : DatasetProfile) (c : Series) :
  In c (columns (df p)) ->
  _col_like (name c) ["id"; "transaction"; "txn"; "key"] = true ->
  orb (is_text (dtype c)) (is_integer (dtype c)) = true ->
  (0 < nunique c)%nat ->
  (0 < duplicated_sum cell_eqb (values c) [])%nat ->
  In (DuplicateIds (name c)) (violations (logical_tally (df p)))
  /\ ((List.length (violations (logical_tally (df p))) <= 30)%nat ->
      In (DuplicateIds (name c)) (violations_summary (evaluate_logical p))).
Proof.
  intros Hc Hlike Hty Hu Hdup.
  assert (Hin : In (DuplicateIds (name c))
                   (violations (logical_tally (df p)))).
  { unfold logical_tally. cbv zeta.
    apply (tally_fold_reports _ _ c).
    - intros t x.
      destruct (orb (is_text (dtype x)) (is_integer (dtype x)));
        [apply run_check_extends | apply incl_refl].
    - intro t. rewrite Hty.
      assert (E : Nat.ltb 0 (duplicated_sum cell_eqb (values c) []) = true)
        by (apply Nat.ltb_lt; exact Hdup).
      rewrite E. cbn [run_check violations].
      apply in_or_app. right. left. reflexivity.
    - apply filter_In. split; [exact Hc|].
      rewrite Hlike. cbn [andb]. apply Nat.ltb_lt. exact Hu. }
  split; [exact Hin|]. intro Hlen.
  unfold evaluate_logical. cbv zeta.
  destruct (Nat.eqb (total_checks (logical_tally (df p))) 0);
    cbn [violations_summary]; rewrite firstn_all2 by exact Hlen; exact Hin.
Qed.

(** ** The further statements at concrete inputs *)

Lemma compute_edti_monotone_witness :
  edti_score (compute_edti (uniform_structural 0.4) (uniform_governance 0.6)
                (uniform_operational 0.4) (uniform_logical 0.4)
                (uniform_analytical 0.4 0.6))
  <= edti_score (compute_edti (uniform_structural 0.8) (uniform_governance 0.2)
                   (uniform_operational 0.8) (uniform_logical 0.8)
                   (uniform_analytical 0.8 0.2))
  /\ (tier_rank (trust_tier
                   (compute_edti (uniform_structural 0.4) (uniform_governance 0.6)
                      (uniform_operational 0.4) (uniform_logical 0.4)
                      (uniform_analytical 0.4 0.6)))
      <= tier_rank (trust_tier
                      (compute_edti (uniform_structural 0.8)
                         (uniform_governance 0.2) (uniform_operational 0.8)
                         (uniform_logical 0.8) (uniform_analytical 0.8 0.2))))%nat.
Proof.
  apply compute_edti_monotone; cbn; unfold Qle; cbn; lia.
Defined.


Lemma sensitive_column_map_entries_witness :
  well_formed contacts_profile
  /\ keys (sensitive_column_map
              (@evaluate_governance bare_engine contacts_profile))
     = ["Email"].
Proof.
  split; [exact contacts_well_formed|].
  exact (proj1 (@sensitive_column_map_entries bare_engine contacts_profile
                  contacts_well_formed)).
Defined.


Lemma unflagged_structural_score_witness :
  structural_risk_flags
    (@evaluate_structural bare_engine constant_float_profile) = []
  /\ redundant_feature_list
       (@evaluate_structural bare_engine constant_float_profile) = []
  /\ missing_ratio_of (df constant_float_profile) <= 0.1
  /\ structural_integrity_score
       (@evaluate_structural bare_engine constant_float_profile) == 1.
Proof.
  split; [reflexivity|].
  exact (@unflagged_structural_score bare_engine constant_float_profile eq_refl).
Defined.


Lemma empty_first_datetime_column_shadows_witness :
  columns (df shadowed_profile) = unset_column :: [filled_column]
  /\ dtype unset_column = dt_datetime64
  /\ forallb isna (values unset_column) = true
  /\ @evaluate_operational bare_engine (20000 * day) shadowed_profile
     = no_temporal_result.
Proof.
  repeat (split; [reflexivity|]).
  exact (@empty_first_datetime_column_shadows bare_engine (20000 * day)
           shadowed_profile unset_column [filled_column]
           eq_refl eq_refl eq_refl).
Defined.

Lemma logical_integrity_extremes_witness :
  total_checks (logical_tally (df orders_profile)) <> 0%nat
  /\ (2 * total_checks (logical_tally (df orders_profile))
      <= 3 * List.length (violations (logical_tally (df orders_profile))))%nat
  /\ logical_integrity_score (evaluate_logical orders_profile) == 0.
Proof.
  assert (H1 : total_checks (logical_tally (df orders_profile)) <> 0%nat)
    by (vm_compute; discriminate).
  assert (H2 : (2 * total_checks (logical_tally (df orders_profile))
                <= 3 * List.length
                         (violations (logical_tally (df orders_profile))))%nat)
    by (vm_compute; lia).
  split; [exact H1|]. split; [exact H2|].
  exact (proj2 (logical_integrity_extremes orders_profile H1) H2).
Defined.

Lemma no_rule_column_default_witness :
  (forall c, In c (columns (df recent_profile)) ->
             _col_like (name c) rule_patterns = false)
  /\ logical_default (evaluate_logical recent_profile).
Proof.
  assert (H1 : forall c, In c (columns (df recent_profile)) ->
                         _col_like (name c) rule_patterns = false).
  { intros c [<- | []]. reflexivity. }
  split; [exact H1|].
  exact (no_rule_column_default recent_profile H1).
Defined.



Lemma candidate_key_silences_governance_witness :
  candidate_primary_keys (@evaluate_structural bare_engine contacts_profile)
  <> []
  /\ ~ In NoUniqueIdentifierFlag
         (risk_flags (@evaluate_governance bare_engine contacts_profile)).
Proof.
  assert (H1 : candidate_primary_keys
                 (@evaluate_structural bare_engine contacts_profile) <> [])
    by (vm_compute; discriminate).
  split; [exact H1|].
  exact (@candidate_key_silences_governance bare_engine contacts_profile H1).
Defined.




Lemma negative_revenue_reported_witness :
  In revenue_column (columns (df revenue_profile))
  /\ any_negative revenue_column = true
  /\ In (NegativeRevenue "revenue")
        (violations_summary (evaluate_logical revenue_profile)).
Proof.
  assert (H1 : In revenue_column (columns (df revenue_profile)))
    by (left; reflexivity).
  split; [exact H1|]. split; [reflexivity|].
  apply (proj2 (negative_revenue_reported revenue_profile revenue_column
                  H1 eq_refl eq_refl eq_refl)).
  vm_compute. lia.
Defined.

Lemma duplicate_ids_reported_witness :
  In order_id_column (columns (df orders_profile))
  /\ (0 < duplicated_sum cell_eqb (values order_id_column) [])%nat
  /\ In (DuplicateIds "order_id")
        (violations_summary (evaluate_logical orders_profile)).
Proof.
  assert (H1 : In order_id_column (columns (df orders_profile)))
    by (left; reflexivity).
  assert (H2 : (0 < nunique order_id_column)%nat) by (vm_compute; lia).
  assert (H3 : (0 < duplicated_sum cell_eqb (values order_id_column) [])%nat)
    by (vm_compute; lia).
  split; [exact H1|]. split; [exact H3|].
  apply (proj2 (duplicate_ids_reported orders_profile order_id_column
                  H1 eq_refl eq_refl H2 H3)).
  vm_compute. lia.
Defined.
